(** * submit-request.py: submitting an MFT transfer over REST and querying it

    A shallow embedding of the script [submit-request.py]: the transfer
    request it builds, the HTTP headers, the POST that submits the request,
    the GET that queries the status and the top-level script that chains
    them.

    Python values are embedded as follows.
    - [str] is a list of Unicode code points; [bytes] is a list of
      [Byte.byte].
    - The values the script handles at run time (what [json.loads] yields,
      what [doPostTransfer] returns) live in one type [value], so that a
      test on the run-time type stays a test in the model.
    - [print], the HTTP calls and the replies of the web server are threaded
      through a state and exception monad [M] over a [World].
    - The standard library stays at the boundary: a response carries what
      [json.loads] makes of its body, the world says how each exchange
      goes, and standard output encodes as UTF-8. *)

From Stdlib Require Import List ZArith NArith Bool Ascii String Lia.
From Stdlib.Strings Require Import Byte.
From Stdlib Require Import DecimalString.
Import ListNotations.

Local Open Scope N_scope.

(** ** Text and bytes *)

Definition codepoint := N.
Definition str := list codepoint.
Definition bytes := list byte.

(** A literal of the source, as a [str]. *)
Definition lit (s : string) : str :=
  map N_of_ascii (list_ascii_of_string s).

Fixpoint str_eqb (a b : str) : bool :=
  match a, b with
  | [], [] => true
  | x :: a', y :: b' => (x =? y) && str_eqb a' b'
  | _, _ => false
  end.

(** [str(n)] for an [int]. *)
Definition str_of_int (n : Z) : str :=
  lit (NilZero.string_of_int (Z.to_int n)).

Definition byte_of_N (n : N) : byte :=
  match Byte.of_N n with Some b => b | None => x00 end.

(** A surrogate code point: no encoding has a place for one. *)
Definition is_surrogate (c : codepoint) : bool :=
  ((0xD800 <=? c) && (c <=? 0xDFFF))%N.

(** [b.decode('iso-8859-1')]: every byte is the code point of its value. *)
Definition latin1 (bs : bytes) : str := map Byte.to_N bs.

(** The exceptions that can reach the script's handler. *)
Inductive exn : Type :=
| TypeError
| KeyError
| IndexError
| ValueError
| UnicodeEncodeError
| OSError
| HTTPException
| InvalidURL.

Inductive outcome (A : Type) : Type :=
| Return (a : A)
| Raise (e : exn).
Arguments Return {A} a.
Arguments Raise {A} e.

(** [bytes(s, 'utf-8')]: the UTF-8 encoding of a code point (below
    [0x110000] in any [str]); a surrogate cannot be encoded. *)
Definition utf8_codepoint (c : codepoint) : outcome bytes :=
  if c <? 0x80 then Return [byte_of_N c]
  else if c <? 0x800 then
    Return [byte_of_N (N.lor 0xC0 (N.shiftr c 6));
            byte_of_N (N.lor 0x80 (N.land c 0x3F))]
  else if (0xD800 <=? c) && (c <=? 0xDFFF) then Raise UnicodeEncodeError
  else if c <? 0x10000 then
    Return [byte_of_N (N.lor 0xE0 (N.shiftr c 12));
            byte_of_N (N.lor 0x80 (N.land (N.shiftr c 6) 0x3F));
            byte_of_N (N.lor 0x80 (N.land c 0x3F))]
  else
    Return [byte_of_N (N.lor 0xF0 (N.land (N.shiftr c 18) 0x07));
            byte_of_N (N.lor 0x80 (N.land (N.shiftr c 12) 0x3F));
            byte_of_N (N.lor 0x80 (N.land (N.shiftr c 6) 0x3F));
            byte_of_N (N.lor 0x80 (N.land c 0x3F))].

Fixpoint utf8_encode (s : str) : outcome bytes :=
  match s with
  | [] => Return []
  | c :: s' =>
      match utf8_codepoint c with
      | Raise e => Raise e
      | Return bs =>
          match utf8_encode s' with
          | Raise e => Raise e
          | Return rest => Return (bs ++ rest)
          end
      end
  end.

(** ** [base64.b64encode] *)

Definition b64_table : bytes :=
  list_byte_of_string
    "ABCDEFGHIJKLMNOPQRSTUVWXYZabcdefghijklmnopqrstuvwxyz0123456789+/".

Definition b64_pad : byte := "="%byte.

Definition b64_char (n : N) : byte :=
  nth (N.to_nat (N.land n 0x3F)) b64_table b64_pad.

Fixpoint b64encode (bs : bytes) : bytes :=
  match bs with
  | [] => []
  | [a] =>
      let x := Byte.to_N a in
      [b64_char (N.shiftr x 2); b64_char (N.shiftl x 4); b64_pad; b64_pad]
  | [a; b] =>
      let x := N.lor (N.shiftl (Byte.to_N a) 8) (Byte.to_N b) in
      [b64_char (N.shiftr x 10); b64_char (N.shiftr x 4);
       b64_char (N.shiftl x 2); b64_pad]
  | a :: b :: c :: rest =>
      let x := N.lor (N.shiftl (Byte.to_N a) 16)
                 (N.lor (N.shiftl (Byte.to_N b) 8) (Byte.to_N c)) in
      b64_char (N.shiftr x 18) :: b64_char (N.shiftr x 12)
        :: b64_char (N.shiftr x 6) :: b64_char x :: b64encode rest
  end.

(** ** [str(b)] for a [bytes] object: its [repr] *)

Definition hex_digit (n : N) : codepoint :=
  if n <? 10 then 48 + n else 87 + n.

Definition squote : codepoint := 39.
Definition dquote : codepoint := 34.
Definition backslash : codepoint := 92.

Definition repr_byte (quote : codepoint) (b : byte) : str :=
  let c := Byte.to_N b in
  if (c =? quote) || (c =? backslash) then [backslash; c]
  else if c =? 9 then [backslash; 116]
  else if c =? 10 then [backslash; 110]
  else if c =? 13 then [backslash; 114]
  else if (c <? 32) || (127 <=? c) then
    [backslash; 120; hex_digit (N.shiftr c 4); hex_digit (N.land c 15)]
  else [c].

Definition bytes_repr (bs : bytes) : str :=
  let has q := existsb (fun b => Byte.to_N b =? q) bs in
  let quote := if has squote && negb (has dquote) then dquote else squote in
  [98; quote] ++ flat_map (repr_byte quote) bs ++ [quote].

(** ** Run-time values *)

#[local] Set Warnings "-register-all".

(** A [dict] keeps its keys in insertion order; every key the script meets
    is a [str].  A [float] is kept as the text [json.dumps] writes for it:
    the script never computes with one. *)
Inductive value : Type :=
| PyNone
| PyBool (b : bool)
| PyInt (n : Z)
| PyFloat (text : str)
| PyStr (s : str)
| PyList (l : list value)
| PyDict (d : list (str * value)).

Fixpoint dict_get (k : str) (d : list (str * value)) : option value :=
  match d with
  | [] => None
  | (k', v) :: d' => if str_eqb k k' then Some v else dict_get k d'
  end.

(** [v[k]] for a [str] key [k]. *)
Definition getitem (v : value) (k : str) : outcome value :=
  match v with
  | PyDict d =>
      match dict_get k d with
      | Some x => Return x
      | None => Raise KeyError
      end
  | _ => Raise TypeError
  end.

(** [v[0]]. *)
Definition getitem0 (v : value) : outcome value :=
  match v with
  | PyList (x :: _) => Return x
  | PyList [] => Raise IndexError
  | PyStr (c :: _) => Return (PyStr [c])
  | PyStr [] => Raise IndexError
  | PyDict _ => Raise KeyError
  | _ => Raise TypeError
  end.

(** [v == s] for a [str] [s]. *)
Definition eq_str (v : value) (s : str) : bool :=
  match v with
  | PyStr t => str_eqb t s
  | _ => false
  end.

Fixpoint prefixb (k s : str) : bool :=
  match k, s with
  | [], _ => true
  | x :: k', y :: s' => (x =? y) && prefixb k' s'
  | _ :: _, [] => false
  end.

Fixpoint infixb (k s : str) : bool :=
  prefixb k s ||
  match s with
  | [] => false
  | _ :: s' => infixb k s'
  end.

(** [k in v] for a [str] [k]. *)
Definition contains (k : str) (v : value) : outcome bool :=
  match v with
  | PyDict d =>
      Return (match dict_get k d with Some _ => true | None => false end)
  | PyList l => Return (existsb (fun x => eq_str x k) l)
  | PyStr s => Return (infixb k s)
  | _ => Raise TypeError
  end.

(** The values [for item in v] runs through. *)
Definition iterate (v : value) : outcome (list value) :=
  match v with
  | PyList l => Return l
  | PyDict d => Return (map (fun kv => PyStr (fst kv)) d)
  | PyStr s => Return (map (fun c => PyStr [c]) s)
  | _ => Raise TypeError
  end.

(** [a + v] for a [str] [a]. *)
Definition concat (a : str) (v : value) : outcome str :=
  match v with
  | PyStr s => Return (a ++ s)
  | _ => Raise TypeError
  end.

(** [type(v) == str]. *)
Definition is_str (v : value) : bool :=
  match v with
  | PyStr _ => true
  | _ => false
  end.

(** ** [json.dumps] with its default settings *)

Definition hex4 (n : N) : str :=
  [hex_digit (N.land (N.shiftr n 12) 15); hex_digit (N.land (N.shiftr n 8) 15);
   hex_digit (N.land (N.shiftr n 4) 15); hex_digit (N.land n 15)].

Definition json_escape_char (c : codepoint) : str :=
  if c =? dquote then [backslash; dquote]
  else if c =? backslash then [backslash; backslash]
  else if c =? 10 then [backslash; 110]
  else if c =? 13 then [backslash; 114]
  else if c =? 9 then [backslash; 116]
  else if c =? 12 then [backslash; 102]
  else if c =? 8 then [backslash; 98]
  else if (32 <=? c) && (c <=? 126) then [c]
  else if c <? 0x10000 then [backslash; 117] ++ hex4 c
  else
    let v := c - 0x10000 in
    [backslash; 117] ++ hex4 (N.lor 0xD800 (N.land (N.shiftr v 10) 0x3FF)) ++
    [backslash; 117] ++ hex4 (N.lor 0xDC00 (N.land v 0x3FF)).

Definition json_string (s : str) : str :=
  [dquote] ++ flat_map json_escape_char s ++ [dquote].

Fixpoint json_dumps (v : value) : str :=
  match v with
  | PyNone => lit "null"
  | PyBool true => lit "true"
  | PyBool false => lit "false"
  | PyInt n => str_of_int n
  | PyFloat t => t
  | PyStr s => json_string s
  | PyList l =>
      let fix elems (l : list value) : str :=
        match l with
        | [] => []
        | [x] => json_dumps x
        | x :: l' => json_dumps x ++ lit ", " ++ elems l'
        end in
      lit "[" ++ elems l ++ lit "]"
  | PyDict d =>
      let fix members (d : list (str * value)) : str :=
        match d with
        | [] => []
        | [(k, x)] => json_string k ++ lit ": " ++ json_dumps x
        | (k, x) :: d' =>
            json_string k ++ lit ": " ++ json_dumps x ++ lit ", " ++ members d'
        end in
      lit "{" ++ members d ++ lit "}"
  end.

(** ** The script's settings *)

(** The module-level constants, gathered so that they can vary. *)
Record Config : Type := {
  mqWebServer : str;
  mqWebServerPort : Z;
  transferRequestUrl : str;
  mqWebUserId : str;
  mqWebPassword : str;
  sourceAgentName : str;
  destinationAgentName : str;
  sourceQMName : str;
  destinationQMName : str;
  sourceItemName : str;
  destinationItemName : str;
  sourceItemType : str;
  destinationItemType : str
}.

(** The values in the source. *)
Definition source_config : Config := {|
  mqWebServer := lit "localhost";
  mqWebServerPort := 8080;
  transferRequestUrl := lit "/ibmmq/rest/v2/admin/mft/transfer";
  mqWebUserId := lit "mftuser";
  mqWebPassword := lit "mftpassw0rd";
  sourceAgentName := lit "SRC";
  destinationAgentName := lit "DEST";
  sourceQMName := lit "SRCQM";
  destinationQMName := lit "DESTQM";
  sourceItemName := lit "/usr/srcdir";
  destinationItemName := lit "/usr/destdir";
  sourceItemType := lit "file";
  destinationItemType := lit "directory"
|}.

(** ** Building the request *)

(** The [dict] that [buildTransferRequest] assembles before serializing it. *)
Definition transferRequest (cfg : Config) : value :=
  let sourceAgentAttributes :=
    PyDict [(lit "qmgrName", PyStr (sourceQMName cfg));
            (lit "name", PyStr (sourceAgentName cfg))] in
  let destinationAgentAttributes :=
    PyDict [(lit "qmgrName", PyStr (destinationQMName cfg));
            (lit "name", PyStr (destinationAgentName cfg))] in
  let sourceItem :=
    PyDict [(lit "name", PyStr (sourceItemName cfg));
            (lit "type", PyStr (sourceItemType cfg))] in
  let destinationItem :=
    PyDict [(lit "name", PyStr (destinationItemName cfg));
            (lit "type", PyStr (destinationItemType cfg))] in
  let item :=
    PyDict [(lit "source", sourceItem); (lit "destination", destinationItem)] in
  let transferSet := PyDict [(lit "item", PyList [item])] in
  PyDict [(lit "sourceAgent", sourceAgentAttributes);
          (lit "destinationAgent", destinationAgentAttributes);
          (lit "transferSet", transferSet)].

Definition buildTransferRequest (cfg : Config) : str :=
  let jsonStr := json_dumps (transferRequest cfg) in
  jsonStr.

(** ** Reading a JSON text back: [json.loads] *)

(** The tokens of a text made of objects, arrays and strings. *)
Inductive token : Type :=
| TBeginObject
| TEndObject
| TBeginArray
| TEndArray
| TColon
| TComma
| TString (s : str).

(** Where the reader is: between tokens, inside a string (with what it
    holds so far, last character first, and the high surrogate of a
    [\u] escape that may still get its other half), after a backslash, or
    inside the four digits of a [\u] escape. *)
Inductive lex_state : Type :=
| Outside
| Inside (acc : str) (high : option codepoint)
| Escaped (acc : str) (high : option codepoint)
| Hex (acc : str) (high : option codepoint) (todo : nat) (v : N).

Definition flush (acc : str) (high : option codepoint) : str :=
  match high with
  | Some h => h :: acc
  | None => acc
  end.

Definition hex_value (c : codepoint) : option N :=
  if ((48 <=? c) && (c <=? 57))%N then Some (c - 48)%N
  else if ((97 <=? c) && (c <=? 102))%N then Some (c - 87)%N
  else if ((65 <=? c) && (c <=? 70))%N then Some (c - 55)%N
  else None.

Definition simple_escape (c : codepoint) : option codepoint :=
  if (c =? 34)%N then Some 34%N
  else if (c =? 92)%N then Some 92%N
  else if (c =? 47)%N then Some 47%N
  else if (c =? 98)%N then Some 8%N
  else if (c =? 102)%N then Some 12%N
  else if (c =? 110)%N then Some 10%N
  else if (c =? 114)%N then Some 13%N
  else if (c =? 116)%N then Some 9%N
  else None.

Definition punctuation (c : codepoint) : option token :=
  if (c =? 123)%N then Some TBeginObject
  else if (c =? 125)%N then Some TEndObject
  else if (c =? 91)%N then Some TBeginArray
  else if (c =? 93)%N then Some TEndArray
  else if (c =? 58)%N then Some TColon
  else if (c =? 44)%N then Some TComma
  else None.

Definition is_high (u : N) : bool := ((0xD800 <=? u) && (u <=? 0xDBFF))%N.
Definition is_low (u : N) : bool := ((0xDC00 <=? u) && (u <=? 0xDFFF))%N.

(** A [\u] escape has been read: a low surrogate right after the escape of a
    high one makes one character with it. *)
Definition unit_read (acc : str) (high : option codepoint) (u : N)
  : lex_state :=
  match high with
  | Some h =>
      if is_low u then
        Inside ((0x10000 + (h - 0xD800) * 1024 + (u - 0xDC00))%N :: acc) None
      else if is_high u then Inside (h :: acc) (Some u)
      else Inside (u :: h :: acc) None
  | None => if is_high u then Inside acc (Some u) else Inside (u :: acc) None
  end.

Definition lex_step (c : codepoint) (st : lex_state * list token)
  : option (lex_state * list token) :=
  let (state, toks) := st in
  match state with
  | Outside =>
      if (c =? dquote)%N then Some (Inside [] None, toks)
      else if ((c =? 32) || (c =? 9) || (c =? 10) || (c =? 13))%N
      then Some (Outside, toks)
      else
        match punctuation c with
        | Some t => Some (Outside, t :: toks)
        | None => None
        end
  | Inside acc high =>
      if (c =? dquote)%N
      then Some (Outside, TString (rev (flush acc high)) :: toks)
      else if (c =? backslash)%N then Some (Escaped acc high, toks)
      else if (c <? 32)%N then None
      else Some (Inside (c :: flush acc high) None, toks)
  | Escaped acc high =>
      if (c =? 117)%N then Some (Hex acc high 4 0%N, toks)
      else
        match simple_escape c with
        | Some d => Some (Inside (d :: flush acc high) None, toks)
        | None => None
        end
  | Hex acc high todo v =>
      match hex_value c with
      | None => None
      | Some d =>
          match todo with
          | 0%nat => None
          | 1%nat => Some (unit_read acc high (v * 16 + d)%N, toks)
          | S l => Some (Hex acc high l (v * 16 + d)%N, toks)
          end
      end
  end.

Fixpoint lex_run (input : str) (st : lex_state * list token)
  : option (lex_state * list token) :=
  match input with
  | [] => Some st
  | c :: rest =>
      match lex_step c st with
      | Some st' => lex_run rest st'
      | None => None
      end
  end.

Definition lex (input : str) : option (list token) :=
  match lex_run input (Outside, []) with
  | Some (Outside, toks) => Some (rev toks)
  | _ => None
  end.

(** [d[k] = v] on a [dict]: a key already there keeps its place. *)
Fixpoint dict_set (k : str) (v : value) (d : list (str * value))
  : list (str * value) :=
  match d with
  | [] => [(k, v)]
  | (k', v') :: d' =>
      if str_eqb k k' then (k', v) :: d' else (k', v') :: dict_set k v d'
  end.

Fixpoint parse_value (fuel : nat) (toks : list token)
  : option (value * list token) :=
  match fuel with
  | O => None
  | S f =>
      match toks with
      | TString s :: r => Some (PyStr s, r)
      | TBeginArray :: TEndArray :: r => Some (PyList [], r)
      | TBeginArray :: r => parse_elements f r []
      | TBeginObject :: TEndObject :: r => Some (PyDict [], r)
      | TBeginObject :: r => parse_members f r []
      | _ => None
      end
  end
with parse_elements (fuel : nat) (toks : list token) (acc : list value)
  : option (value * list token) :=
  match fuel with
  | O => None
  | S f =>
      match parse_value f toks with
      | Some (v, TComma :: r) => parse_elements f r (acc ++ [v])
      | Some (v, TEndArray :: r) => Some (PyList (acc ++ [v]), r)
      | _ => None
      end
  end
with parse_members (fuel : nat) (toks : list token)
    (acc : list (str * value)) : option (value * list token) :=
  match fuel with
  | O => None
  | S f =>
      match toks with
      | TString k :: TColon :: r =>
          match parse_value f r with
          | Some (v, TComma :: r') => parse_members f r' (dict_set k v acc)
          | Some (v, TEndObject :: r') => Some (PyDict (dict_set k v acc), r')
          | _ => None
          end
      | _ => None
      end
  end.

(** What [json.loads] makes of a text of objects, arrays and strings; the
    reader knows no numbers and no literals. *)
Definition json_read (text : str) : option value :=
  match lex text with
  | Some toks =>
      match parse_value (2 * List.length toks) toks with
      | Some (v, []) => Some v
      | _ => None
      end
  | None => None
  end.

(** A character of a text: a code point below [0x110000] that is no
    surrogate. *)
Definition scalar (c : codepoint) : bool :=
  ((c <? 0x110000)%N && negb (is_surrogate c)).

Definition valid_text (s : str) : Prop := forallb scalar s = true.

(** Settings whose names are texts. *)
Definition valid_names (cfg : Config) : Prop :=
  valid_text (sourceQMName cfg) /\ valid_text (sourceAgentName cfg) /\
  valid_text (destinationQMName cfg) /\ valid_text (destinationAgentName cfg) /\
  valid_text (sourceItemName cfg) /\ valid_text (sourceItemType cfg) /\
  valid_text (destinationItemName cfg) /\ valid_text (destinationItemType cfg).

(** The tokens of the text of the request. *)
Definition request_tokens (cfg : Config) : list token :=
  [TBeginObject;
   TString (lit "sourceAgent"); TColon; TBeginObject;
   TString (lit "qmgrName"); TColon; TString (sourceQMName cfg); TComma;
   TString (lit "name"); TColon; TString (sourceAgentName cfg);
   TEndObject; TComma;
   TString (lit "destinationAgent"); TColon; TBeginObject;
   TString (lit "qmgrName"); TColon; TString (destinationQMName cfg); TComma;
   TString (lit "name"); TColon; TString (destinationAgentName cfg);
   TEndObject; TComma;
   TString (lit "transferSet"); TColon; TBeginObject;
   TString (lit "item"); TColon; TBeginArray; TBeginObject;
   TString (lit "source"); TColon; TBeginObject;
   TString (lit "name"); TColon; TString (sourceItemName cfg); TComma;
   TString (lit "type"); TColon; TString (sourceItemType cfg);
   TEndObject; TComma;
   TString (lit "destination"); TColon; TBeginObject;
   TString (lit "name"); TColon; TString (destinationItemName cfg); TComma;
   TString (lit "type"); TColon; TString (destinationItemType cfg);
   TEndObject; TEndObject; TEndArray; TEndObject; TEndObject].

(** Settings whose names hold a double quote, a backslash, a line feed, a
    letter outside ASCII and a character outside the basic plane. *)
Definition quoted_config : Config := {|
  mqWebServer := lit "localhost";
  mqWebServerPort := 8080;
  transferRequestUrl := lit "/ibmmq/rest/v2/admin/mft/transfer";
  mqWebUserId := lit "mftuser";
  mqWebPassword := lit "mftpassw0rd";
  sourceAgentName := [83; 34; 82; 92; 67]%N;
  destinationAgentName := lit "DEST";
  sourceQMName := lit "SRCQM";
  destinationQMName := lit "DESTQM";
  sourceItemName := lit "/usr/" ++ [233; 128512; 10]%N;
  destinationItemName := lit "/usr/destdir";
  sourceItemType := lit "file";
  destinationItemType := lit "directory"
|}.

(** ** Building the headers *)

Definition buildHTTPHeaders (userId password : str)
  : outcome (list (str * str)) :=
  match utf8_encode (userId ++ lit ":" ++ password) with
  | Raise e => Raise e
  | Return raw =>
      let encodedUidPwd := b64encode raw in
      let mqRESTHeaders :=
        [(lit "Content-type", lit "application/json");
         (lit "ibm-mq-rest-csrf-token", lit "");
         (lit "Authorization", lit "Basic " ++ bytes_repr encodedUidPwd)] in
      Return mqRESTHeaders
  end.

(** ** The web server, [print] and the monad of the script *)

(** What the script reads from an [HTTPResponse]: its [status] (also the
    value of [getcode()]), its headers, as the bytes received for a name,
    and the body, here as the outcome of
    [json.loads(response.read(response.length))]. *)
Record HTTPResponse : Type := {
  status : Z;
  header : str -> option bytes;
  document : outcome value
}.

(** [response.getheader(name)]: [None] for a header the reply lacks, else
    its bytes decoded as ISO-8859-1, which is how [http.client] reads the
    header block. *)
Definition getheader (response : HTTPResponse) (name : str) : option str :=
  option_map latin1 (header response name).

(** How one HTTP exchange goes: the constructor [HTTPConnection(host, port)]
    raises (it refuses a host that holds a space or a control character),
    or [request] raises, or the request is sent and [getresponse] raises,
    or the server answers. *)
Inductive Reply : Type :=
| ConnectFails (e : exn)
| SendFails (e : exn)
| ReceiveFails (e : exn)
| Answers (r : HTTPResponse).

Inductive Event : Type :=
| Printed (s : str)
| PrintedExn (e : exn)
| Requested (host : str) (port : Z) (method url body : str)
    (headers : list (str * str)).

(** [replies] scripts the exchanges to come, in order; with none left the
    connection is refused.  [events] records what the script did, oldest
    first. *)
Record World : Type := {
  replies : list Reply;
  events : list Event
}.

Definition M (A : Type) : Type := World -> outcome A * World.

Definition ret {A} (a : A) : M A := fun w => (Return a, w).

Definition raise {A} (e : exn) : M A := fun w => (Raise e, w).

Definition bind {A B} (c : M A) (k : A -> M B) : M B :=
  fun w =>
    match c w with
    | (Return a, w') => k a w'
    | (Raise e, w') => (Raise e, w')
    end.

Notation "x <- c ;; k" := (bind c (fun x => k))
  (at level 61, c at next level, right associativity).
Notation "c ;; k" := (bind c (fun _ => k))
  (at level 61, right associativity).

(** A pure computation that may raise. *)
Definition lift {A} (o : outcome A) : M A := fun w => (o, w).

Definition try_except {A} (c : M A) (handler : exn -> M A) : M A :=
  fun w =>
    match c w with
    | (Return a, w') => (Return a, w')
    | (Raise e, w') => handler e w'
    end.

Definition emit (ev : Event) : M unit :=
  fun w => (Return tt, {| replies := replies w; events := events w ++ [ev] |}).

(** [print(s)], with standard output in UTF-8: a surrogate cannot be
    encoded, [print] raises and nothing of [s] is written. *)
Definition print (s : str) : M unit :=
  if existsb is_surrogate s then raise UnicodeEncodeError
  else emit (Printed s).

Definition print_exn (e : exn) : M unit := emit (PrintedExn e).

(** [for x in l: body(x)]. *)
Fixpoint for_each {A} (l : list A) (body : A -> M unit) : M unit :=
  match l with
  | [] => ret tt
  | x :: l' => body x ;; for_each l' body
  end.

(** A request to this host and port is on record. *)
Definition connected_before (host : str) (port : Z) (evs : list Event)
  : bool :=
  existsb (fun ev =>
             match ev with
             | Requested h p _ _ _ _ => str_eqb h host && Z.eqb p port
             | _ => false
             end) evs.

(** [HTTPConnection(host, port)]: the constructor opens nothing, it only
    checks the host.  Whether it raises is told by the next scripted
    exchange; its verdict is the same for the same host and port, so it does
    not raise once a request to them is on record. *)
Definition HTTPConnection (host : str) (port : Z) : M unit :=
  fun w =>
    match replies w with
    | ConnectFails e :: rest =>
        if connected_before host port (events w) then (Return tt, w)
        else (Raise e, {| replies := rest; events := events w |})
    | _ => (Return tt, w)
    end.

(** [mqrestConn.request(method, url, body, headers)]: the request is
    recorded and the next scripted exchange is taken; the result is what
    [getresponse()] will do.  A [ConnectFails] left for [request] is a
    failure to send. *)
Definition request (host : str) (port : Z) (method url body : str)
    (headers : list (str * str)) : M (outcome HTTPResponse) :=
  fun w =>
    let evs := events w ++ [Requested host port method url body headers] in
    match replies w with
    | [] => (Raise OSError, {| replies := []; events := evs |})
    | ConnectFails e :: rest => (Raise e, {| replies := rest; events := evs |})
    | SendFails e :: rest => (Raise e, {| replies := rest; events := evs |})
    | ReceiveFails e :: rest =>
        (Return (Raise e), {| replies := rest; events := evs |})
    | Answers r :: rest =>
        (Return (Return r), {| replies := rest; events := evs |})
    end.

Definition getresponse (conn : outcome HTTPResponse) : M HTTPResponse :=
  lift conn.

(** A header value as [getheader] hands it to the script. *)
Definition header_value (h : option str) : value :=
  match h with
  | Some s => PyStr s
  | None => PyNone
  end.

(** [v + s] for a [str] [s]. *)
Definition add_str (v : value) (s : str) : outcome str :=
  match v with
  | PyStr a => Return (a ++ s)
  | _ => Raise TypeError
  end.

Local Open Scope Z_scope.

Definition ACCEPTED : Z := 202.
Definition OK : Z := 200.
Definition NOT_FOUND : Z := 404.

Section Script.

Variable cfg : Config.

(** ** Submitting the transfer *)

Definition doPostTransfer (url body userId password : str) : M value :=
  HTTPConnection (mqWebServer cfg) (mqWebServerPort cfg) ;;
  headers <- lift (buildHTTPHeaders userId password) ;;
  mqrestConn <- request (mqWebServer cfg) (mqWebServerPort cfg)
                  (lit "POST") url body headers ;;
  print (lit "Posted transfer request successfully") ;;
  response <- getresponse mqrestConn ;;
  if status response =? ACCEPTED then
    line <- lift (concat (lit "Transfer requested accepted. Status URL ")
                    (header_value (getheader response (lit "location")))) ;;
    print line ;;
    ret (header_value (getheader response (lit "location")))
  else
    print (lit "An error occurred while posting transfer request. HTTP response code: "
             ++ str_of_int (status response)) ;;
    ret (PyInt (status response)).

(** ** Querying the status *)

(** [transferStatus['transfer'][0]]. *)
Definition first_transfer (transferStatus : value) : outcome value :=
  match getitem transferStatus (lit "transfer") with
  | Raise e => Raise e
  | Return transfers => getitem0 transfers
  end.

(** The body of the loop over [transferSetItems]. *)
Definition report_item (item : value) : M unit :=
  itemStatus <- lift (getitem item (lit "status")) ;;
  itemState <- lift (getitem itemStatus (lit "state")) ;;
  if eq_str itemState (lit "failed") then
    itemStatus' <- lift (getitem item (lit "status")) ;;
    description <- lift (getitem itemStatus' (lit "description")) ;;
    line <- lift (concat (lit "Error: ") description) ;;
    print line
  else ret tt.

Definition doGetTransferStatus (url userId password : str) : M Z :=
  HTTPConnection (mqWebServer cfg) (mqWebServerPort cfg) ;;
  headers <- lift (buildHTTPHeaders userId password) ;;
  mqrestConn <- request (mqWebServer cfg) (mqWebServerPort cfg)
                  (lit "GET") url (lit "") headers ;;
  response <- getresponse mqrestConn ;;
  if negb (status response =? OK) then
    line <- lift (concat (lit "Response received for GET request: ")
                    (PyInt (status response))) ;;
    print line ;;
    ret (status response)
  else
    transferStatus <- lift (document response) ;;
    t0 <- lift (first_transfer transferStatus) ;;
    transferId <- lift (getitem t0 (lit "id")) ;;
    t0 <- lift (first_transfer transferStatus) ;;
    transferState <- lift (getitem t0 (lit "status")) ;;
    state <- lift (getitem transferState (lit "state")) ;;
    line <- lift (concat (lit "Status of transfer request with Id ") transferId) ;;
    line <- lift (concat (line ++ lit " is ") state) ;;
    print line ;;
    (if eq_str state (lit "failed") then
       t0 <- lift (first_transfer transferStatus) ;;
       present <- lift (contains (lit "transferSet") t0) ;;
       if present then
         t0 <- lift (first_transfer transferStatus) ;;
         transferSet <- lift (getitem t0 (lit "transferSet")) ;;
         transferSetItems <- lift (getitem transferSet (lit "item")) ;;
         items <- lift (iterate transferSetItems) ;;
         for_each items report_item
       else ret tt
     else ret tt) ;;
    ret (status response).

(** ** The script *)

Definition main : M unit :=
  let transferJson := buildTransferRequest cfg in
  try_except
    (postResponse <- doPostTransfer (transferRequestUrl cfg) transferJson
                       (mqWebUserId cfg) (mqWebPassword cfg) ;;
     if is_str postResponse then
       url <- lift (add_str postResponse (lit "?attributes=*")) ;;
       getStatus <- doGetTransferStatus url (mqWebUserId cfg)
                      (mqWebPassword cfg) ;;
       if getStatus =? NOT_FOUND then
         url <- lift (add_str postResponse (lit "?attributes=*")) ;;
         doGetTransferStatus url (mqWebUserId cfg) (mqWebPassword cfg) ;;
         ret tt
       else ret tt
     else ret tt)
    (fun e => print_exn e).

End Script.

(** Running the script against scripted exchanges. *)
Definition run (cfg : Config) (rs : list Reply) : World :=
  snd (main cfg {| replies := rs; events := [] |}).

Definition is_request (method : str) (ev : Event) : bool :=
  match ev with
  | Requested _ _ m _ _ _ => str_eqb m method
  | _ => false
  end.

(** How many requests with the given verb were made. *)
Definition count_requests (method : str) (evs : list Event) : nat :=
  List.length (filter (is_request method) evs).

(** ** What the specification describes *)

(** A JSON text written with ['] where the text has the double quote. *)
Definition json_lit (s : string) : str :=
  map (fun c => if (c =? squote)%N then dquote else c) (lit s).

Definition has_str (k : str) (d : list (str * value)) : bool :=
  match dict_get k d with
  | Some (PyStr _) => true
  | _ => false
  end.

(** An agent: an object with an owner ([qmgrName]) and a [name]. *)
Definition is_agent (v : value) : bool :=
  match v with
  | PyDict d => has_str (lit "qmgrName") d && has_str (lit "name") d
  | _ => false
  end.

(** One side of an item: an object with a [name] and a [type]. *)
Definition is_item_side (v : value) : bool :=
  match v with
  | PyDict d => has_str (lit "name") d && has_str (lit "type") d
  | _ => false
  end.

Definition is_item (v : value) : bool :=
  match v with
  | PyDict d =>
      match dict_get (lit "source") d, dict_get (lit "destination") d with
      | Some s, Some t => is_item_side s && is_item_side t
      | _, _ => false
      end
  | _ => false
  end.

(** The [item] array under [transferSet]. *)
Definition descriptor_items (v : value) : option (list value) :=
  match v with
  | PyDict d =>
      match dict_get (lit "transferSet") d with
      | Some (PyDict ts) =>
          match dict_get (lit "item") ts with
          | Some (PyList l) => Some l
          | _ => None
          end
      | _ => None
      end
  | _ => None
  end.

(** The shape of a transfer descriptor. *)
Definition is_descriptor (v : value) : bool :=
  match v with
  | PyDict d =>
      match dict_get (lit "sourceAgent") d,
            dict_get (lit "destinationAgent") d,
            descriptor_items v with
      | Some s, Some t, Some (i :: l) =>
          is_agent s && is_agent t && forallb is_item (i :: l)
      | _, _, _ => false
      end
  | _ => false
  end.

(** An entry of [transferSet.item] in a status document: an object whose
    [status] has the [state] given and, when that is [failed], the
    [description] given. *)
Definition item_reports (item : value) (report : str * str) : Prop :=
  exists fields st,
    item = PyDict fields /\
    dict_get (lit "status") fields = Some (PyDict st) /\
    dict_get (lit "state") st = Some (PyStr (fst report)) /\
    (str_eqb (fst report) (lit "failed") = true ->
     dict_get (lit "description") st = Some (PyStr (snd report))).

(** A status document: [transfer[0]] has the [id] and [status.state] given
    and a [transferSet] whose [item] array is [items]. *)
Definition status_document (doc : value) (transferId state : str)
    (items : list value) : Prop :=
  exists top entry more fields st ts,
    doc = PyDict top /\
    dict_get (lit "transfer") top = Some (PyList (entry :: more)) /\
    entry = PyDict fields /\
    dict_get (lit "id") fields = Some (PyStr transferId) /\
    dict_get (lit "status") fields = Some (PyDict st) /\
    dict_get (lit "state") st = Some (PyStr state) /\
    dict_get (lit "transferSet") fields = Some (PyDict ts) /\
    dict_get (lit "item") ts = Some (PyList items).

(** The descriptions to surface: those of the failed items, in order. *)
Definition failed_descriptions (reports : list (str * str)) : list str :=
  map snd (filter (fun r => str_eqb (fst r) (lit "failed")) reports).

(** The exception the script's handler printed last, if any. *)
Definition reported (w : World) : option exn :=
  fold_left (fun acc ev =>
               match ev with
               | PrintedExn e => Some e
               | _ => acc
               end) (events w) None.

(** A computation only adds to the record of events. *)
Definition grows {A} (c : M A) : Prop :=
  forall w, exists l, events (snd (c w)) = events w ++ l.

(** ** Sample exchanges *)

Definition only_location (l : bytes) : str -> option bytes :=
  fun name => if str_eqb name (lit "location") then Some l else None.

Definition no_headers : str -> option bytes := fun _ => None.

Definition sample_location : str :=
  lit "/ibmmq/rest/v2/admin/mft/transfer/414d51204d46544453542020".

Definition accepted_reply : HTTPResponse :=
  {| status := 202;
     header :=
       only_location
         (list_byte_of_string
            "/ibmmq/rest/v2/admin/mft/transfer/414d51204d46544453542020");
     document := Raise ValueError |}.

Definition accepted_without_location : HTTPResponse :=
  {| status := 202; header := no_headers; document := Raise ValueError |}.

Definition bare_reply (code : Z) : HTTPResponse :=
  {| status := code; header := no_headers; document := Raise ValueError |}.

Definition dict (l : list (string * value)) : value :=
  PyDict (map (fun kv => (lit (fst kv), snd kv)) l).

Definition text (s : string) : value := PyStr (lit s).

Definition item_status (l : list (string * value)) : value :=
  dict [("status"%string, dict l)].

Definition failed_items : list value :=
  [item_status [("state"%string, text "failed");
                ("description"%string, text "disk full")];
   item_status [("state"%string, text "successful")]].

Definition failed_document : value :=
  dict [("transfer"%string,
         PyList [dict [("id"%string, text "414d51204d46544453542020");
                       ("status"%string, dict [("state"%string, text "failed")]);
                       ("transferSet"%string,
                        dict [("item"%string, PyList failed_items)])]])].

Definition failed_reply : HTTPResponse :=
  {| status := 200; header := no_headers;
     document := Return failed_document |}.

Definition completed_reply : HTTPResponse :=
  {| status := 200; header := no_headers;
     document :=
       Return (dict [("transfer"%string,
                      PyList [dict [("id"%string,
                                     text "414d51204d46544453542020");
                                    ("status"%string,
                                     dict [("state"%string,
                                            text "completed")])]])]) |}.

(** A status reply whose body is the JSON text [[]]. *)
Definition empty_list_reply : HTTPResponse :=
  {| status := 200; header := no_headers; document := Return (PyList []) |}.

(** The source's settings with the name of the source agent left empty. *)
Definition unnamed_source_config : Config := {|
  mqWebServer := lit "localhost";
  mqWebServerPort := 8080;
  transferRequestUrl := lit "/ibmmq/rest/v2/admin/mft/transfer";
  mqWebUserId := lit "mftuser";
  mqWebPassword := lit "mftpassw0rd";
  sourceAgentName := lit "";
  destinationAgentName := lit "DEST";
  sourceQMName := lit "SRCQM";
  destinationQMName := lit "DESTQM";
  sourceItemName := lit "/usr/srcdir";
  destinationItemName := lit "/usr/destdir";
  sourceItemType := lit "file";
  destinationItemType := lit "directory"
|}.

(** The headers the source's credentials give. *)
Definition source_headers : list (str * str) :=
  [(lit "Content-type", lit "application/json");
   (lit "ibm-mq-rest-csrf-token", lit "");
   (lit "Authorization", lit "Basic b'bWZ0dXNlcjptZnRwYXNzdzByZA=='")].

(** A byte that [repr] writes as itself: printable ASCII other than the
    quotes and the backslash. *)
Definition plain_byte (b : byte) : bool :=
  let c := Byte.to_N b in
  ((32 <=? c) && (c <? 127) && negb (c =? squote) && negb (c =? dquote)
   && negb (c =? backslash))%N.

(** The text of a [bytes] object made of ASCII only. *)
Definition ascii_text (bs : bytes) : str := map Byte.to_N bs.

(** ** Further notions *)

(** Text that standard output can encode: it holds no surrogate. *)
Definition encodable (s : str) : Prop := existsb is_surrogate s = false.

(** The hosts the constructor of [http.client] refuses: those that hold a
    space, a control character or DEL. *)
Definition refuses_host (host : str) : bool :=
  existsb (fun c => ((c <=? 0x20) || (c =? 0x7F))%N) host.

(** The constructor returns: the connection object is built. *)
Definition constructs (host : str) (port : Z) (w : World) : Prop :=
  HTTPConnection host port w = (Return tt, w).

(** The connection of the script gets built: the host of the settings is
    one the constructor accepts, and the world agrees. *)
Definition connection_built (cfg : Config) (w : World) : Prop :=
  refuses_host (mqWebServer cfg) = false /\
  constructs (mqWebServer cfg) (mqWebServerPort cfg) w.

(** A printable ASCII character. *)
Definition printable (c : codepoint) : bool :=
  ((32 <=? c) && (c <=? 126))%N.

(** The first entry of [transfer] in a status document: its fields, with
    the [id] and the [status.state] given. *)
Definition status_entry (doc : value) (fields : list (str * value))
    (transferId state : str) : Prop :=
  exists top more st,
    doc = PyDict top /\
    dict_get (lit "transfer") top = Some (PyList (PyDict fields :: more)) /\
    dict_get (lit "id") fields = Some (PyStr transferId) /\
    dict_get (lit "status") fields = Some (PyDict st) /\
    dict_get (lit "state") st = Some (PyStr state).

(** A failed entry of [transferSet.item] that has no [description]. *)
Definition failed_without_description (item : value) : Prop :=
  exists fields st,
    item = PyDict fields /\
    dict_get (lit "status") fields = Some (PyDict st) /\
    dict_get (lit "state") st = Some (PyStr (lit "failed")) /\
    dict_get (lit "description") st = None.

(** A computation that makes no request and takes no reply. *)
Definition silent {A} (c : M A) : Prop :=
  forall w,
    replies (snd (c w)) = replies w /\
    forall method,
      count_requests method (events (snd (c w))) =
      count_requests method (events w).

(** ** Further sample data *)

(** A status document in which the failed item has a lone surrogate, the
    JSON escape [\ud800], for description. *)
Definition unencodable_items : list value :=
  [item_status [("state"%string, text "successful")];
   item_status [("state"%string, text "failed");
                ("description"%string, PyStr [0xD800%N])]].

Definition unencodable_reply : HTTPResponse :=
  {| status := 200; header := no_headers;
     document :=
       Return
         (dict [("transfer"%string,
                 PyList [dict [("id"%string, text "414d51204d46544453542020");
                               ("status"%string,
                                dict [("state"%string, text "failed")]);
                               ("transferSet"%string,
                                dict [("item"%string,
                                       PyList unencodable_items)])]])]) |}.

(** A status document in which the second item failed without saying
    why. *)
Definition undescribed_items : list value :=
  [item_status [("state"%string, text "failed");
                ("description"%string, text "disk full")];
   item_status [("state"%string, text "failed")];
   item_status [("state"%string, text "failed");
                ("description"%string, text "no such file")]].

Definition undescribed_fields : list (str * value) :=
  [(lit "id", text "414d51204d46544453542020");
   (lit "status", dict [("state"%string, text "failed")]);
   (lit "transferSet", dict [("item"%string, PyList undescribed_items)])].

Definition undescribed_reply : HTTPResponse :=
  {| status := 200; header := no_headers;
     document :=
       Return (dict [("transfer"%string, PyList [PyDict undescribed_fields])]) |}.

(** A failed transfer whose status carries no [transferSet]. *)
Definition bare_failed_fields : list (str * value) :=
  [(lit "id", text "414d51204d46544453542020");
   (lit "status", dict [("state"%string, text "failed")])].

Definition bare_failed_reply : HTTPResponse :=
  {| status := 200; header := no_headers;
     document :=
       Return (dict [("transfer"%string, PyList [PyDict bare_failed_fields])]) |}.

Definition completed_fields : list (str * value) :=
  [(lit "id", text "414d51204d46544453542020");
   (lit "status", dict [("state"%string, text "completed")])].

(** A failed transfer with the [transferSet] given. *)
Definition fields_with_transferSet (ts : value) : list (str * value) :=
  [(lit "id", text "414d51204d46544453542020");
   (lit "status", dict [("state"%string, text "failed")]);
   (lit "transferSet", ts)].

Definition reply_with_transferSet (ts : value) : HTTPResponse :=
  {| status := 200; header := no_headers;
     document :=
       Return (dict [("transfer"%string,
                      PyList [PyDict (fields_with_transferSet ts)])]) |}.

(** The source's settings with a lone surrogate as password. *)
Definition surrogate_config : Config := {|
  mqWebServer := lit "localhost";
  mqWebServerPort := 8080;
  transferRequestUrl := lit "/ibmmq/rest/v2/admin/mft/transfer";
  mqWebUserId := lit "mftuser";
  mqWebPassword := [0xD800%N];
  sourceAgentName := lit "SRC";
  destinationAgentName := lit "DEST";
  sourceQMName := lit "SRCQM";
  destinationQMName := lit "DESTQM";
  sourceItemName := lit "/usr/srcdir";
  destinationItemName := lit "/usr/destdir";
  sourceItemType := lit "file";
  destinationItemType := lit "directory"
|}.

(** * Properties *)

(** ** Text *)

Lemma str_eqb_refl (s : str) : str_eqb s s = true.
Proof.
  induction s as [|c s IH]; simpl; [reflexivity|].
  now rewrite N.eqb_refl.
Qed.

Lemma str_eqb_eq (a b : str) : str_eqb a b = true <-> a = b.
Proof.
  split.
  - revert b; induction a as [|x a IH]; intros [|y b] H; simpl in H;
      try discriminate; [reflexivity|].
    apply andb_true_iff in H as [Hxy Hab].
    apply N.eqb_eq in Hxy. apply IH in Hab. now subst.
  - intros ->. apply str_eqb_refl.
Qed.

(** ** Base64 and the [repr] of its output *)

Lemma b64_table_plain : forallb plain_byte (b64_pad :: b64_table) = true.
Proof. vm_compute. reflexivity. Qed.

Lemma b64_pad_plain : plain_byte b64_pad = true.
Proof. reflexivity. Qed.

Lemma b64_char_plain (n : N) : plain_byte (b64_char n) = true.
Proof.
  unfold b64_char.
  pose proof b64_table_plain as H.
  rewrite forallb_forall in H. apply H.
  destruct (nth_in_or_default (N.to_nat (N.land n 63)) b64_table b64_pad)
    as [Hin | ->].
  - now right.
  - now left.
Qed.

Lemma b64encode_plain_upto (n : nat) :
  forall bs, (List.length bs <= n)%nat -> forallb plain_byte (b64encode bs) = true.
Proof.
  induction n as [n IH] using lt_wf_ind.
  intros [|a [|b [|c rest]]] Hlen.
  - reflexivity.
  - cbn [b64encode forallb]. now rewrite !b64_char_plain, b64_pad_plain.
  - cbn [b64encode forallb]. now rewrite !b64_char_plain, b64_pad_plain.
  - cbn [b64encode forallb]. rewrite !b64_char_plain.
    cbn [andb]. apply (IH (List.length rest)); cbn [List.length] in Hlen; lia.
Qed.

Lemma b64encode_plain (bs : bytes) : forallb plain_byte (b64encode bs) = true.
Proof. now apply (b64encode_plain_upto (List.length bs)). Qed.

Lemma plain_byte_repr (b : byte) :
  plain_byte b = true -> repr_byte squote b = [Byte.to_N b].
Proof.
  unfold plain_byte, repr_byte. cbv zeta.
  generalize (Byte.to_N b) as c. intros c H.
  repeat (apply andb_true_iff in H as [H ?]).
  repeat match goal with
         | Hn : negb _ = true |- _ => apply negb_true_iff in Hn
         end.
  apply N.leb_le in H.
  match goal with Hlt : (c <? 127)%N = true |- _ => apply N.ltb_lt in Hlt end.
  replace (c =? squote)%N with false by (symmetry; assumption).
  replace (c =? backslash)%N with false by (symmetry; assumption).
  cbn [orb].
  replace (c =? 9)%N with false by (symmetry; apply N.eqb_neq; lia).
  replace (c =? 10)%N with false by (symmetry; apply N.eqb_neq; lia).
  replace (c =? 13)%N with false by (symmetry; apply N.eqb_neq; lia).
  replace (c <? 32)%N with false by (symmetry; apply N.ltb_ge; lia).
  replace (127 <=? c)%N with false by (symmetry; apply N.leb_gt; lia).
  reflexivity.
Qed.

Lemma plain_bytes_no_quote (q : codepoint) (bs : bytes) :
  q = squote \/ q = dquote ->
  forallb plain_byte bs = true ->
  existsb (fun b => (Byte.to_N b =? q)%N) bs = false.
Proof.
  intros Hq. induction bs as [|b bs IH]; cbn [forallb existsb]; [reflexivity|].
  intros H. apply andb_true_iff in H as [Hb Hbs].
  rewrite (IH Hbs), orb_false_r.
  unfold plain_byte in Hb. cbv zeta in Hb.
  repeat (apply andb_true_iff in Hb as [Hb ?]).
  repeat match goal with
         | Hn : negb _ = true |- _ => apply negb_true_iff in Hn
         end.
  destruct Hq as [-> | ->]; assumption.
Qed.

Lemma plain_bytes_flat_repr (bs : bytes) :
  forallb plain_byte bs = true ->
  flat_map (repr_byte squote) bs = ascii_text bs.
Proof.
  induction bs as [|b bs IH]; cbn [forallb flat_map ascii_text map];
    [reflexivity|].
  intros H. apply andb_true_iff in H as [Hb Hbs].
  rewrite (plain_byte_repr b Hb). fold (ascii_text bs).
  now rewrite (IH Hbs).
Qed.

Lemma bytes_repr_plain (bs : bytes) :
  forallb plain_byte bs = true ->
  bytes_repr bs = lit "b'" ++ ascii_text bs ++ lit "'".
Proof.
  intros H. unfold bytes_repr. cbv zeta.
  rewrite (plain_bytes_no_quote squote bs (or_introl eq_refl) H).
  cbn [andb]. now rewrite (plain_bytes_flat_repr bs H).
Qed.

(** ** The headers *)

(** Whatever the credentials, the [Authorization] value wraps the base64
    text in [b'] and [']. *)
Lemma buildHTTPHeaders_value (userId password : str) (raw : bytes) :
  utf8_encode (userId ++ lit ":" ++ password) = Return raw ->
  buildHTTPHeaders userId password =
  Return [(lit "Content-type", lit "application/json");
          (lit "ibm-mq-rest-csrf-token", lit "");
          (lit "Authorization",
           lit "Basic " ++ lit "b'" ++ ascii_text (b64encode raw) ++ lit "'")].
Proof.
  intros H. unfold buildHTTPHeaders. rewrite H.
  now rewrite (bytes_repr_plain _ (b64encode_plain raw)).
Qed.

(** So it is never the string [Basic ] followed by the base64 text. *)
Lemma authorization_is_not_basic_base64 (userId password : str) (raw : bytes) :
  utf8_encode (userId ++ lit ":" ++ password) = Return raw ->
  buildHTTPHeaders userId password <>
  Return [(lit "Content-type", lit "application/json");
          (lit "ibm-mq-rest-csrf-token", lit "");
          (lit "Authorization", lit "Basic " ++ ascii_text (b64encode raw))].
Proof.
  intros H. rewrite (buildHTTPHeaders_value _ _ _ H). intros Heq.
  injection Heq as Heq.
  apply (f_equal (@List.length codepoint)) in Heq.
  cbn [List.length] in Heq. rewrite length_app in Heq. lia.
Qed.

(** C8. With the credentials of the source, [mftuser] and [mftpassw0rd],
    the header set has the JSON content type, an empty
    [ibm-mq-rest-csrf-token] and an [Authorization] header, but the value of
    the latter is [Basic b'bWZ0dXNlcjptZnRwYXNzdzByZA=='], the [repr] of
    the bytes object, and not [Basic bWZ0dXNlcjptZnRwYXNzdzByZA==], the
    string [Basic ] followed by the base64 text of [mftuser:mftpassw0rd]. *)
Theorem authorization_header_wraps_repr :
  buildHTTPHeaders (lit "mftuser") (lit "mftpassw0rd") =
    Return [(lit "Content-type", lit "application/json");
            (lit "ibm-mq-rest-csrf-token", lit "");
            (lit "Authorization",
             lit "Basic b'bWZ0dXNlcjptZnRwYXNzdzByZA=='")] /\
  (exists raw,
     utf8_encode (lit "mftuser:mftpassw0rd") = Return raw /\
     ascii_text (b64encode raw) = lit "bWZ0dXNlcjptZnRwYXNzdzByZA==") /\
  lit "Basic b'bWZ0dXNlcjptZnRwYXNzdzByZA=='" <>
    lit "Basic bWZ0dXNlcjptZnRwYXNzdzByZA==".
Proof.
  split; [vm_compute; reflexivity|]. split.
  - eexists. split; vm_compute; reflexivity.
  - vm_compute. discriminate.
Qed.

(** ** Submitting *)

(** Text that standard output can encode. *)
Lemma lit_plain (s : string) : existsb is_surrogate (lit s) = false.
Proof.
  induction s as [|a s IH]; [reflexivity|].
  change (lit (String a s)) with (N_of_ascii a :: lit s).
  cbn [existsb]. rewrite IH, orb_false_r.
  pose proof (N_ascii_bounded a) as Ha. unfold is_surrogate.
  replace (55296 <=? N_of_ascii a)%N with false
    by (symmetry; apply N.leb_gt; lia).
  reflexivity.
Qed.

Lemma latin1_plain (bs : bytes) : existsb is_surrogate (latin1 bs) = false.
Proof.
  induction bs as [|b bs IH]; [reflexivity|].
  cbn [latin1 map existsb]. fold (latin1 bs). rewrite IH, orb_false_r.
  pose proof (Byte.to_N_bounded b) as Hb. unfold is_surrogate.
  replace (55296 <=? Byte.to_N b)%N with false
    by (symmetry; apply N.leb_gt; lia).
  reflexivity.
Qed.

Lemma str_of_int_plain (n : Z) : existsb is_surrogate (str_of_int n) = false.
Proof. apply lit_plain. Qed.

(** A header value holds no surrogate. *)
Lemma getheader_plain (r : HTTPResponse) (name l : str) :
  getheader r name = Some l -> existsb is_surrogate l = false.
Proof.
  unfold getheader. destruct (header r name) as [bs|]; [|discriminate].
  intros H. injection H as <-. apply latin1_plain.
Qed.

Lemma print_plain (s : str) (w : World) :
  existsb is_surrogate s = false ->
  print s w =
  (Return tt, {| replies := replies w; events := events w ++ [Printed s] |}).
Proof. intros H. unfold print. now rewrite H. Qed.

Lemma print_surrogate (s : str) (w : World) :
  existsb is_surrogate s = true -> print s w = (Raise UnicodeEncodeError, w).
Proof. intros H. unfold print. now rewrite H. Qed.

Ltac plain_text :=
  solve
    [ unfold encodable in *;
      rewrite ?existsb_app, ?lit_plain, ?latin1_plain, ?str_of_int_plain;
      repeat match goal with
             | H : getheader _ _ = Some ?l |- context [existsb is_surrogate ?l] =>
                 rewrite (getheader_plain _ _ _ H)
             | H : existsb is_surrogate ?s = false
               |- context [existsb is_surrogate ?s] => rewrite H
             end;
      reflexivity ].

Lemma bind_lift_return {A B} (o : outcome A) (a : A) (k : A -> M B)
    (w : World) :
  o = Return a -> bind (lift o) k w = k a w.
Proof. now intros ->. Qed.

Lemma bind_lift_raise {A B} (o : outcome A) (e : exn) (k : A -> M B)
    (w : World) :
  o = Raise e -> bind (lift o) k w = (Raise e, w).
Proof. now intros ->. Qed.

(** When the constructor returns. *)
Lemma constructs_unless_told (host : str) (port : Z) (w : World) :
  (forall e rest, replies w <> ConnectFails e :: rest) ->
  constructs host port w.
Proof.
  intros H. unfold constructs, HTTPConnection.
  destruct (replies w) as [|[e|e|e|r] rest]; try reflexivity.
  now destruct (H e rest).
Qed.

Lemma constructs_again (host : str) (port : Z) (w : World) :
  connected_before host port (events w) = true -> constructs host port w.
Proof.
  intros H. unfold constructs, HTTPConnection. rewrite H.
  now destruct (replies w) as [|[e|e|e|r] rest].
Qed.

Lemma connected_after_request (host : str) (port : Z) (method url body : str)
    (headers : list (str * str)) (pre post : list Event) :
  connected_before host port
    (pre ++ Requested host port method url body headers :: post) = true.
Proof.
  unfold connected_before. rewrite existsb_app. cbn [existsb].
  now rewrite str_eqb_refl, Z.eqb_refl, orb_true_r.
Qed.

Lemma bind_constructs {A} (host : str) (port : Z) (k : unit -> M A)
    (w : World) :
  constructs host port w -> bind (HTTPConnection host port) k w = k tt w.
Proof. intros H. unfold bind. now rewrite H. Qed.

(** What the constructor does otherwise. *)
Lemma bind_refused {A} (host : str) (port : Z) (k : unit -> M A) (e : exn)
    (rest : list Reply) (evs : list Event) :
  connected_before host port evs = false ->
  bind (HTTPConnection host port) k
    {| replies := ConnectFails e :: rest; events := evs |} =
  (Raise e, {| replies := rest; events := evs |}).
Proof.
  intros H. unfold bind, HTTPConnection. cbn [replies events]. now rewrite H.
Qed.

(** Running the operations of the monad on a world. *)
Ltac monad_cbv :=
  cbv beta iota zeta delta
    [bind lift HTTPConnection request getresponse print_exn emit ret raise
     try_except replies events].

Ltac monad_steps :=
  monad_cbv; repeat (rewrite print_plain by plain_text; monad_cbv).

(** What [doPostTransfer] does once the server answers. *)
Lemma doPostTransfer_answered (cfg : Config) (url body userId password : str)
    (hdrs : list (str * str)) (r : HTTPResponse) (rest : list Reply)
    (evs : list Event) :
  buildHTTPHeaders userId password = Return hdrs ->
  doPostTransfer cfg url body userId password
    {| replies := Answers r :: rest; events := evs |} =
  let sent :=
    [Requested (mqWebServer cfg) (mqWebServerPort cfg) (lit "POST") url body
       hdrs;
     Printed (lit "Posted transfer request successfully")] in
  if status r =? ACCEPTED then
    match getheader r (lit "location") with
    | Some l =>
        (Return (PyStr l),
         {| replies := rest;
            events :=
              evs ++ sent ++
              [Printed (lit "Transfer requested accepted. Status URL " ++ l)] |})
    | None => (Raise TypeError, {| replies := rest; events := evs ++ sent |})
    end
  else
    (Return (PyInt (status r)),
     {| replies := rest;
        events :=
          evs ++ sent ++
          [Printed
             (lit "An error occurred while posting transfer request. HTTP response code: "
                ++ str_of_int (status r))] |}).
Proof.
  intros Hh. unfold doPostTransfer. monad_steps. rewrite Hh. monad_steps.
  destruct (status r =? ACCEPTED).
  - destruct (getheader r (lit "location")) as [l|] eqn:Hl;
      cbn [header_value concat]; monad_steps; now rewrite <- !app_assoc.
  - monad_steps. now rewrite <- !app_assoc.
Qed.

(** C3. When the server answers the POST with status 202 and a [location]
    header [l], [doPostTransfer] returns the string [l]; it made the one POST
    request and printed its two progress lines. *)
Theorem doPostTransfer_accepted (cfg : Config)
    (url body userId password l : str) (hdrs : list (str * str))
    (r : HTTPResponse) (rest : list Reply) (evs : list Event) :
  buildHTTPHeaders userId password = Return hdrs ->
  status r = ACCEPTED ->
  getheader r (lit "location") = Some l ->
  doPostTransfer cfg url body userId password
    {| replies := Answers r :: rest; events := evs |} =
  (Return (PyStr l),
   {| replies := rest;
      events :=
        evs ++
        [Requested (mqWebServer cfg) (mqWebServerPort cfg) (lit "POST") url
           body hdrs;
         Printed (lit "Posted transfer request successfully");
         Printed (lit "Transfer requested accepted. Status URL " ++ l)] |}).
Proof.
  intros Hh Hs Hl. rewrite (doPostTransfer_answered _ _ _ _ _ _ _ _ _ Hh).
  cbv zeta. rewrite Hs, Z.eqb_refl, Hl. reflexivity.
Qed.

Lemma doPostTransfer_accepted_witness :
  doPostTransfer source_config (transferRequestUrl source_config)
    (buildTransferRequest source_config) (lit "mftuser") (lit "mftpassw0rd")
    {| replies := [Answers accepted_reply]; events := [] |} =
  (Return (PyStr sample_location),
   {| replies := [];
      events :=
        [] ++
        [Requested (mqWebServer source_config) (mqWebServerPort source_config)
           (lit "POST") (transferRequestUrl source_config)
           (buildTransferRequest source_config) source_headers;
         Printed (lit "Posted transfer request successfully");
         Printed (lit "Transfer requested accepted. Status URL "
                    ++ sample_location)] |}).
Proof.
  apply (doPostTransfer_accepted source_config
           (transferRequestUrl source_config)
           (buildTransferRequest source_config) (lit "mftuser")
           (lit "mftpassw0rd") sample_location source_headers accepted_reply
           [] []).
  - vm_compute. reflexivity.
  - reflexivity.
  - vm_compute. reflexivity.
Defined.

(** C5. When the server answers the POST with a status other than 202,
    [doPostTransfer] returns that status as an [int] after its one request,
    and the script stops there: the POST is the only request it makes, no
    status query follows and the exchanges still scripted are left
    untouched. *)
Theorem rejected_submission_is_final (cfg : Config)
    (url body userId password : str) (hdrs hdrs' : list (str * str))
    (r : HTTPResponse) (rest : list Reply) (evs : list Event) :
  buildHTTPHeaders userId password = Return hdrs ->
  buildHTTPHeaders (mqWebUserId cfg) (mqWebPassword cfg) = Return hdrs' ->
  status r <> ACCEPTED ->
  doPostTransfer cfg url body userId password
    {| replies := Answers r :: rest; events := evs |} =
  (Return (PyInt (status r)),
   {| replies := rest;
      events :=
        evs ++
        [Requested (mqWebServer cfg) (mqWebServerPort cfg) (lit "POST") url
           body hdrs;
         Printed (lit "Posted transfer request successfully");
         Printed
           (lit "An error occurred while posting transfer request. HTTP response code: "
              ++ str_of_int (status r))] |}) /\
  run cfg (Answers r :: rest) =
  {| replies := rest;
     events :=
       [Requested (mqWebServer cfg) (mqWebServerPort cfg) (lit "POST")
          (transferRequestUrl cfg) (buildTransferRequest cfg) hdrs';
        Printed (lit "Posted transfer request successfully");
        Printed
          (lit "An error occurred while posting transfer request. HTTP response code: "
             ++ str_of_int (status r))] |} /\
  count_requests (lit "POST") (events (run cfg (Answers r :: rest))) = 1%nat /\
  count_requests (lit "GET") (events (run cfg (Answers r :: rest))) = 0%nat.
Proof.
  intros Hh Hh' Hs. apply Z.eqb_neq in Hs.
  assert (Hrun : run cfg (Answers r :: rest) =
    {| replies := rest;
       events :=
         [Requested (mqWebServer cfg) (mqWebServerPort cfg) (lit "POST")
            (transferRequestUrl cfg) (buildTransferRequest cfg) hdrs';
          Printed (lit "Posted transfer request successfully");
          Printed
            (lit "An error occurred while posting transfer request. HTTP response code: "
               ++ str_of_int (status r))] |}).
  { unfold run, main. monad_steps.
    rewrite (doPostTransfer_answered _ _ _ _ _ _ _ _ _ Hh').
    cbv zeta. rewrite Hs. reflexivity. }
  split; [|split; [exact Hrun|]].
  - rewrite (doPostTransfer_answered _ _ _ _ _ _ _ _ _ Hh).
    cbv zeta. rewrite Hs. reflexivity.
  - rewrite Hrun. split; reflexivity.
Qed.

Lemma rejected_submission_is_final_witness :
  doPostTransfer source_config (transferRequestUrl source_config)
    (buildTransferRequest source_config) (lit "mftuser") (lit "mftpassw0rd")
    {| replies := [Answers (bare_reply 401); Answers completed_reply];
       events := [] |} =
  (Return (PyInt 401),
   {| replies := [Answers completed_reply];
      events :=
        [] ++
        [Requested (mqWebServer source_config) (mqWebServerPort source_config)
           (lit "POST") (transferRequestUrl source_config)
           (buildTransferRequest source_config) source_headers;
         Printed (lit "Posted transfer request successfully");
         Printed
           (lit "An error occurred while posting transfer request. HTTP response code: "
              ++ str_of_int 401)] |}) /\
  run source_config [Answers (bare_reply 401); Answers completed_reply] =
  {| replies := [Answers completed_reply];
     events :=
       [Requested (mqWebServer source_config) (mqWebServerPort source_config)
          (lit "POST") (transferRequestUrl source_config)
          (buildTransferRequest source_config) source_headers;
        Printed (lit "Posted transfer request successfully");
        Printed
          (lit "An error occurred while posting transfer request. HTTP response code: "
             ++ str_of_int 401)] |} /\
  count_requests (lit "POST")
    (events (run source_config
               [Answers (bare_reply 401); Answers completed_reply])) = 1%nat /\
  count_requests (lit "GET")
    (events (run source_config
               [Answers (bare_reply 401); Answers completed_reply])) = 0%nat.
Proof.
  apply (rejected_submission_is_final source_config
           (transferRequestUrl source_config)
           (buildTransferRequest source_config) (lit "mftuser")
           (lit "mftpassw0rd") source_headers source_headers (bare_reply 401)
           [Answers completed_reply] []).
  - vm_compute. reflexivity.
  - vm_compute. reflexivity.
  - vm_compute. discriminate.
Defined.

(** ** Querying *)

(** A reply to the GET with a status other than 200 makes
    [doGetTransferStatus] raise: the message it builds adds an [int] to a
    [str]. *)
Lemma doGetTransferStatus_not_ok (cfg : Config) (url userId password : str)
    (hdrs : list (str * str)) (r : HTTPResponse) (rest : list Reply)
    (evs : list Event) :
  buildHTTPHeaders userId password = Return hdrs ->
  status r <> OK ->
  doGetTransferStatus cfg url userId password
    {| replies := Answers r :: rest; events := evs |} =
  (Raise TypeError,
   {| replies := rest;
      events :=
        evs ++
        [Requested (mqWebServer cfg) (mqWebServerPort cfg) (lit "GET") url
           (lit "") hdrs] |}).
Proof.
  intros Hh Hs. apply Z.eqb_neq in Hs.
  unfold doGetTransferStatus. monad_steps. rewrite Hh. monad_steps.
  rewrite Hs. cbn [negb concat]. reflexivity.
Qed.

(** C1. A reply of 404 to the status query: [doGetTransferStatus] makes its
    GET request and then raises [TypeError] while building the line it
    means to print; it prints nothing and does not return 404. *)
Theorem doGetTransferStatus_not_found_raises :
  doGetTransferStatus source_config (sample_location ++ lit "?attributes=*")
    (lit "mftuser") (lit "mftpassw0rd")
    {| replies := [Answers (bare_reply NOT_FOUND)]; events := [] |} =
  (Raise TypeError,
   {| replies := [];
      events :=
        [Requested (lit "localhost") 8080 (lit "GET")
           (sample_location ++ lit "?attributes=*") (lit "")
           source_headers] |}).
Proof.
  apply (doGetTransferStatus_not_ok source_config _ _ _ source_headers
           (bare_reply NOT_FOUND) [] []).
  - vm_compute. reflexivity.
  - vm_compute. discriminate.
Qed.

(** ** The script after an accepted submission *)

(** The script once the POST is answered with 202 and a [location]: it goes
    on with the status query. *)
Lemma main_accepted (cfg : Config) (hdrs : list (str * str)) (l : str)
    (r : HTTPResponse) (rest : list Reply) :
  buildHTTPHeaders (mqWebUserId cfg) (mqWebPassword cfg) = Return hdrs ->
  status r = ACCEPTED ->
  getheader r (lit "location") = Some l ->
  main cfg {| replies := Answers r :: rest; events := [] |} =
  try_except
    (getStatus <- doGetTransferStatus cfg (l ++ lit "?attributes=*")
                    (mqWebUserId cfg) (mqWebPassword cfg) ;;
     if getStatus =? NOT_FOUND then
       doGetTransferStatus cfg (l ++ lit "?attributes=*") (mqWebUserId cfg)
         (mqWebPassword cfg) ;;
       ret tt
     else ret tt)
    (fun e => print_exn e)
    {| replies := rest;
       events :=
         [Requested (mqWebServer cfg) (mqWebServerPort cfg) (lit "POST")
            (transferRequestUrl cfg) (buildTransferRequest cfg) hdrs;
          Printed (lit "Posted transfer request successfully");
          Printed (lit "Transfer requested accepted. Status URL " ++ l)] |}.
Proof.
  intros Hh Hs Hl. unfold main.
  cbv beta iota zeta delta [try_except bind].
  rewrite (doPostTransfer_answered _ _ _ _ _ _ _ _ _ Hh).
  cbv zeta. rewrite Hs, Z.eqb_refl, Hl.
  cbn [is_str add_str lift app]. reflexivity.
Qed.

(** When the first status query is answered with a status other than 200,
    the script ends there: one GET, then the handler prints the
    [TypeError]. *)
Lemma run_first_query_not_ok (cfg : Config) (hdrs : list (str * str))
    (l : str) (r q : HTTPResponse) (rest : list Reply) :
  buildHTTPHeaders (mqWebUserId cfg) (mqWebPassword cfg) = Return hdrs ->
  status r = ACCEPTED ->
  getheader r (lit "location") = Some l ->
  status q <> OK ->
  run cfg (Answers r :: Answers q :: rest) =
  {| replies := rest;
     events :=
       [Requested (mqWebServer cfg) (mqWebServerPort cfg) (lit "POST")
          (transferRequestUrl cfg) (buildTransferRequest cfg) hdrs;
        Printed (lit "Posted transfer request successfully");
        Printed (lit "Transfer requested accepted. Status URL " ++ l);
        Requested (mqWebServer cfg) (mqWebServerPort cfg) (lit "GET")
          (l ++ lit "?attributes=*") (lit "") hdrs;
        PrintedExn TypeError] |}.
Proof.
  intros Hh Hs Hl Hq. unfold run.
  rewrite (main_accepted cfg hdrs l r _ Hh Hs Hl).
  cbv beta iota zeta delta [try_except bind].
  rewrite (doGetTransferStatus_not_ok _ _ _ _ _ _ _ _ Hh Hq).
  reflexivity.
Qed.

(** C2. The POST is accepted, the first status query is answered with 404
    and a reply saying [completed] is ready for a second query.  The script
    makes one GET only: the [TypeError] of the first query ends it, the
    handler prints the exception, the reply kept for a second query is never
    asked for, and nothing between the events is a wait. *)
Theorem not_found_is_not_queried_again :
  run source_config
    [Answers accepted_reply; Answers (bare_reply NOT_FOUND);
     Answers completed_reply] =
  {| replies := [Answers completed_reply];
     events :=
       [Requested (lit "localhost") 8080 (lit "POST")
          (lit "/ibmmq/rest/v2/admin/mft/transfer")
          (buildTransferRequest source_config) source_headers;
        Printed (lit "Posted transfer request successfully");
        Printed (lit "Transfer requested accepted. Status URL "
                   ++ sample_location);
        Requested (lit "localhost") 8080 (lit "GET")
          (sample_location ++ lit "?attributes=*") (lit "") source_headers;
        PrintedExn TypeError] |} /\
  count_requests (lit "GET")
    (events (run source_config
               [Answers accepted_reply; Answers (bare_reply NOT_FOUND);
                Answers completed_reply])) = 1%nat.
Proof.
  assert (H : run source_config
    [Answers accepted_reply; Answers (bare_reply NOT_FOUND);
     Answers completed_reply] =
    {| replies := [Answers completed_reply];
       events :=
         [Requested (lit "localhost") 8080 (lit "POST")
            (lit "/ibmmq/rest/v2/admin/mft/transfer")
            (buildTransferRequest source_config) source_headers;
          Printed (lit "Posted transfer request successfully");
          Printed (lit "Transfer requested accepted. Status URL "
                     ++ sample_location);
          Requested (lit "localhost") 8080 (lit "GET")
            (sample_location ++ lit "?attributes=*") (lit "") source_headers;
          PrintedExn TypeError] |}).
  { apply (run_first_query_not_ok source_config source_headers sample_location
             accepted_reply (bare_reply NOT_FOUND) [Answers completed_reply]).
    - vm_compute. reflexivity.
    - reflexivity.
    - vm_compute. reflexivity.
    - vm_compute. discriminate. }
  split; [exact H|]. rewrite H. vm_compute. reflexivity.
Qed.

(** ** A 202 without a [location] header *)

(** The script once [doPostTransfer] raised: the handler prints the
    exception and nothing else happens. *)
Lemma run_post_raises (cfg : Config) (rs : list Reply) (e : exn) (w : World) :
  doPostTransfer cfg (transferRequestUrl cfg) (buildTransferRequest cfg)
    (mqWebUserId cfg) (mqWebPassword cfg) {| replies := rs; events := [] |} =
  (Raise e, w) ->
  run cfg rs = {| replies := replies w; events := events w ++ [PrintedExn e] |}.
Proof.
  intros H. unfold run, main.
  cbv beta iota zeta delta [try_except bind]. rewrite H. reflexivity.
Qed.

(** The script once [doPostTransfer] returned something that is not a
    [str]: it is over. *)
Lemma run_post_not_str (cfg : Config) (rs : list Reply) (v : value) (w : World) :
  doPostTransfer cfg (transferRequestUrl cfg) (buildTransferRequest cfg)
    (mqWebUserId cfg) (mqWebPassword cfg) {| replies := rs; events := [] |} =
  (Return v, w) ->
  is_str v = false ->
  run cfg rs = w.
Proof.
  intros H Hv. unfold run, main.
  cbv beta iota zeta delta [try_except bind]. rewrite H, Hv. reflexivity.
Qed.

(** C4 (as the code has it). When the server answers the POST with status
    202 and no [location] header, [doPostTransfer] raises [TypeError], from
    adding [None] to the text of its progress line, after the one POST
    request; the script's handler prints the exception and no status query
    is made. *)
Theorem accepted_without_location_raises (cfg : Config)
    (url body userId password : str) (hdrs hdrs' : list (str * str))
    (r : HTTPResponse) (rest : list Reply) (evs : list Event) :
  buildHTTPHeaders userId password = Return hdrs ->
  buildHTTPHeaders (mqWebUserId cfg) (mqWebPassword cfg) = Return hdrs' ->
  status r = ACCEPTED ->
  getheader r (lit "location") = None ->
  doPostTransfer cfg url body userId password
    {| replies := Answers r :: rest; events := evs |} =
  (Raise TypeError,
   {| replies := rest;
      events :=
        evs ++
        [Requested (mqWebServer cfg) (mqWebServerPort cfg) (lit "POST") url
           body hdrs;
         Printed (lit "Posted transfer request successfully")] |}) /\
  run cfg (Answers r :: rest) =
  {| replies := rest;
     events :=
       [Requested (mqWebServer cfg) (mqWebServerPort cfg) (lit "POST")
          (transferRequestUrl cfg) (buildTransferRequest cfg) hdrs';
        Printed (lit "Posted transfer request successfully");
        PrintedExn TypeError] |} /\
  count_requests (lit "GET") (events (run cfg (Answers r :: rest))) = 0%nat.
Proof.
  intros Hh Hh' Hs Hl.
  assert (Hrun : run cfg (Answers r :: rest) =
    {| replies := rest;
       events :=
         [Requested (mqWebServer cfg) (mqWebServerPort cfg) (lit "POST")
            (transferRequestUrl cfg) (buildTransferRequest cfg) hdrs';
          Printed (lit "Posted transfer request successfully");
          PrintedExn TypeError] |}).
  { rewrite (run_post_raises cfg _ TypeError
               {| replies := rest;
                  events :=
                    [Requested (mqWebServer cfg) (mqWebServerPort cfg)
                       (lit "POST") (transferRequestUrl cfg)
                       (buildTransferRequest cfg) hdrs';
                     Printed (lit "Posted transfer request successfully")] |}).
    - reflexivity.
    - rewrite (doPostTransfer_answered _ _ _ _ _ _ _ _ _ Hh').
      cbv zeta. rewrite Hs, Z.eqb_refl, Hl. reflexivity. }
  split; [|split; [exact Hrun|]].
  - rewrite (doPostTransfer_answered _ _ _ _ _ _ _ _ _ Hh).
    cbv zeta. rewrite Hs, Z.eqb_refl, Hl. reflexivity.
  - rewrite Hrun. reflexivity.
Qed.

Lemma accepted_without_location_raises_witness :
  doPostTransfer source_config (transferRequestUrl source_config)
    (buildTransferRequest source_config) (lit "mftuser") (lit "mftpassw0rd")
    {| replies := [Answers accepted_without_location]; events := [] |} =
  (Raise TypeError,
   {| replies := [];
      events :=
        [] ++
        [Requested (mqWebServer source_config) (mqWebServerPort source_config)
           (lit "POST") (transferRequestUrl source_config)
           (buildTransferRequest source_config) source_headers;
         Printed (lit "Posted transfer request successfully")] |}) /\
  run source_config [Answers accepted_without_location] =
  {| replies := [];
     events :=
       [Requested (mqWebServer source_config) (mqWebServerPort source_config)
          (lit "POST") (transferRequestUrl source_config)
          (buildTransferRequest source_config) source_headers;
        Printed (lit "Posted transfer request successfully");
        PrintedExn TypeError] |} /\
  count_requests (lit "GET")
    (events (run source_config [Answers accepted_without_location])) = 0%nat.
Proof.
  apply (accepted_without_location_raises source_config
           (transferRequestUrl source_config)
           (buildTransferRequest source_config) (lit "mftuser")
           (lit "mftpassw0rd") source_headers source_headers
           accepted_without_location [] []).
  - vm_compute. reflexivity.
  - vm_compute. reflexivity.
  - reflexivity.
  - reflexivity.
Defined.

(** C4, as stated, fails.  For a 202 without a [location] header
    [doPostTransfer] raises the interpreter's [TypeError]; there is no error
    of the script's own.  What the script reports is the same [TypeError]
    that it reports when the header was there and the status query was
    answered with 404, or with a body that is a JSON array: the missing
    header cannot be told apart from them. *)
Lemma missing_location_error_is_generic :
  status accepted_without_location = ACCEPTED /\
  getheader accepted_without_location (lit "location") = None /\
  fst (doPostTransfer source_config (transferRequestUrl source_config)
         (buildTransferRequest source_config) (lit "mftuser")
         (lit "mftpassw0rd")
         {| replies := [Answers accepted_without_location]; events := [] |}) =
    Raise TypeError /\
  reported (run source_config [Answers accepted_without_location]) =
    Some TypeError /\
  reported (run source_config
              [Answers accepted_reply; Answers (bare_reply NOT_FOUND)]) =
    reported (run source_config [Answers accepted_without_location]) /\
  reported (run source_config
              [Answers accepted_reply; Answers empty_list_reply]) =
    reported (run source_config [Answers accepted_without_location]).
Proof. repeat split; vm_compute; reflexivity. Qed.

(** ** Events are only added *)

Lemma grows_ret {A} (a : A) : grows (ret a).
Proof. intros w. exists []. cbn. now rewrite app_nil_r. Qed.

Lemma grows_lift {A} (o : outcome A) : grows (lift o).
Proof. intros w. exists []. cbn. now rewrite app_nil_r. Qed.

Lemma grows_emit (ev : Event) : grows (emit ev).
Proof. intros w. exists [ev]. reflexivity. Qed.

Lemma grows_bind {A B} (c : M A) (k : A -> M B) :
  grows c -> (forall a, grows (k a)) -> grows (bind c k).
Proof.
  intros Hc Hk w. unfold bind. destruct (Hc w) as [l Hl].
  destruct (c w) as [[a|e] w1]; cbn [snd] in *.
  - destruct (Hk a w1) as [l' Hl']. exists (l ++ l').
    now rewrite Hl', Hl, app_assoc.
  - now exists l.
Qed.

Lemma grows_try_except {A} (c : M A) (handler : exn -> M A) :
  grows c -> (forall e, grows (handler e)) -> grows (try_except c handler).
Proof.
  intros Hc Hh w. unfold try_except. destruct (Hc w) as [l Hl].
  destruct (c w) as [[a|e] w1]; cbn [snd] in *.
  - now exists l.
  - destruct (Hh e w1) as [l' Hl']. exists (l ++ l').
    now rewrite Hl', Hl, app_assoc.
Qed.

Lemma grows_for_each {A} (l : list A) (body : A -> M unit) :
  (forall x, grows (body x)) -> grows (for_each l body).
Proof.
  intros Hb. induction l as [|x l IH]; cbn [for_each].
  - apply grows_ret.
  - apply grows_bind; [apply Hb | intros _; exact IH].
Qed.

Lemma grows_request (host : str) (port : Z) (method url body : str)
    (headers : list (str * str)) :
  grows (request host port method url body headers).
Proof.
  intros w. exists [Requested host port method url body headers].
  unfold request. now destruct (replies w) as [|[e|e|e|r] rest].
Qed.

Lemma grows_print (s : str) : grows (print s).
Proof.
  intros w. unfold print. destruct (existsb is_surrogate s).
  - exists []. cbn. now rewrite app_nil_r.
  - exists [Printed s]. reflexivity.
Qed.

Lemma grows_HTTPConnection (host : str) (port : Z) :
  grows (HTTPConnection host port).
Proof.
  intros w. exists []. rewrite app_nil_r. unfold HTTPConnection.
  destruct (replies w) as [|[e|e|e|r] rest]; try reflexivity.
  now destruct (connected_before host port (events w)).
Qed.

Ltac grows_steps :=
  repeat first
    [ apply grows_ret
    | apply grows_lift
    | apply grows_print
    | apply grows_emit
    | apply grows_request
    | apply grows_HTTPConnection
    | apply grows_bind; [|intros ?]
    | apply grows_for_each; intros ?
    | match goal with
      | |- grows (if ?b then _ else _) => destruct b
      end ].

Lemma grows_report_item (item : value) : grows (report_item item).
Proof. unfold report_item, print. grows_steps. Qed.

Lemma grows_doGetTransferStatus (cfg : Config) (url userId password : str) :
  grows (doGetTransferStatus cfg url userId password).
Proof.
  unfold doGetTransferStatus, getresponse, print. grows_steps.
Qed.

(** After a request whatever follows keeps the request on record. *)
Lemma request_then_grows {A} (host : str) (port : Z) (method url body : str)
    (headers : list (str * str)) (k : outcome HTTPResponse -> M A) (w : World) :
  (forall c, grows (k c)) ->
  exists l,
    events (snd (bind (request host port method url body headers) k w)) =
    events w ++ Requested host port method url body headers :: l.
Proof.
  intros Hk. unfold bind, request.
  destruct (replies w) as [|[e|e|e|r] rest]; cbn [snd events].
  - now exists [].
  - now exists [].
  - now exists [].
  - destruct (Hk (Raise e)
                {| replies := rest;
                   events :=
                     events w ++
                     [Requested host port method url body headers] |})
      as [l Hl].
    exists l. rewrite Hl. cbn [events]. now rewrite <- app_assoc.
  - destruct (Hk (Return r)
                {| replies := rest;
                   events :=
                     events w ++
                     [Requested host port method url body headers] |})
      as [l Hl].
    exists l. rewrite Hl. cbn [events]. now rewrite <- app_assoc.
Qed.

(** [doGetTransferStatus] first of all makes its GET request. *)
Lemma doGetTransferStatus_requests (cfg : Config) (url userId password : str)
    (hdrs : list (str * str)) (w : World) :
  constructs (mqWebServer cfg) (mqWebServerPort cfg) w ->
  buildHTTPHeaders userId password = Return hdrs ->
  exists l,
    events (snd (doGetTransferStatus cfg url userId password w)) =
    events w ++
    Requested (mqWebServer cfg) (mqWebServerPort cfg) (lit "GET") url (lit "")
      hdrs :: l.
Proof.
  intros Hc Hh. unfold doGetTransferStatus.
  rewrite (bind_constructs _ _ _ w Hc), (bind_lift_return _ _ _ w Hh).
  apply request_then_grows. intros c. unfold getresponse. grows_steps.
Qed.

Lemma count_requests_app (method : str) (a b : list Event) :
  count_requests method (a ++ b) =
  (count_requests method a + count_requests method b)%nat.
Proof. unfold count_requests. now rewrite filter_app, length_app. Qed.

(** ** What [doPostTransfer] returns, and what the script does with it *)

(** Every way [doPostTransfer] can go. *)
Ltac post_cases Hh Hs Hl :=
  unfold doPostTransfer;
  match goal with
  | |- context [{| replies := ?rs; events := _ |}] =>
      destruct rs as [|[?e|?e|?e|?r] ?rest]
  end;
  monad_cbv;
  try match goal with
      | |- context [connected_before ?h ?p ?evs] =>
          destruct (connected_before h p evs)
      end;
  monad_cbv;
  try match goal with
      | |- context [buildHTTPHeaders ?u ?p] =>
          destruct (buildHTTPHeaders u p) as [?hdrs|?e] eqn:Hh
      end;
  monad_steps;
  try match goal with
      | |- context [status ?r =? ACCEPTED] =>
          destruct (status r =? ACCEPTED) eqn:Hs;
          [ destruct (getheader r (lit "location")) as [?l|] eqn:Hl;
            cbn [header_value concat]; monad_steps
          | monad_steps ]
      end.

Lemma doPostTransfer_returns_str (cfg : Config) (url body userId password : str)
    (rs : list Reply) (evs : list Event) (l : str) :
  fst (doPostTransfer cfg url body userId password
         {| replies := rs; events := evs |}) = Return (PyStr l) <->
  exists hdrs r rest,
    buildHTTPHeaders userId password = Return hdrs /\
    rs = Answers r :: rest /\
    status r = ACCEPTED /\
    getheader r (lit "location") = Some l.
Proof.
  split.
  - post_cases Hh Hs Hl; cbn [fst]; intros H; try discriminate H.
    injection H as ->. apply Z.eqb_eq in Hs.
    now exists hdrs, r, rest.
  - intros (hdrs & r & rest & Hh & -> & Hs & Hl).
    rewrite (doPostTransfer_answered _ _ _ _ _ _ _ _ _ Hh).
    cbv zeta. now rewrite Hs, Z.eqb_refl, Hl.
Qed.

Lemma doPostTransfer_returns_int (cfg : Config) (url body userId password : str)
    (rs : list Reply) (evs : list Event) (n : Z) :
  fst (doPostTransfer cfg url body userId password
         {| replies := rs; events := evs |}) = Return (PyInt n) <->
  exists hdrs r rest,
    buildHTTPHeaders userId password = Return hdrs /\
    rs = Answers r :: rest /\
    status r <> ACCEPTED /\
    n = status r.
Proof.
  split.
  - post_cases Hh Hs Hl; cbn [fst]; intros H; try discriminate H.
    injection H as <-. apply Z.eqb_neq in Hs.
    now exists hdrs, r, rest.
  - intros (hdrs & r & rest & Hh & -> & Hs & ->).
    rewrite (doPostTransfer_answered _ _ _ _ _ _ _ _ _ Hh).
    cbv zeta. apply Z.eqb_neq in Hs. now rewrite Hs.
Qed.

(** [doPostTransfer] returns a [str] or an [int], nothing else. *)
Lemma doPostTransfer_returns_str_or_int (cfg : Config)
    (url body userId password : str) (w : World) (v : value) :
  fst (doPostTransfer cfg url body userId password w) = Return v ->
  (exists l, v = PyStr l) \/ (exists n, v = PyInt n).
Proof.
  destruct w as [rs evs].
  post_cases Hh Hs Hl; cbn [fst]; intros H; try discriminate H;
    injection H as <-; eauto.
Qed.

(** [doPostTransfer] makes no GET request. *)
Lemma doPostTransfer_makes_no_get (cfg : Config)
    (url body userId password : str) (rs : list Reply) (evs : list Event) :
  count_requests (lit "GET")
    (events (snd (doPostTransfer cfg url body userId password
                    {| replies := rs; events := evs |}))) =
  count_requests (lit "GET") evs.
Proof.
  post_cases Hh Hs Hl; cbn [snd events];
    rewrite ?count_requests_app; cbn; lia.
Qed.

(** What a computation has put on record stays there through what follows
    it under a handler. *)
Lemma try_bind_keeps {A B} (c : M A) (k : A -> M B) (handler : exn -> M B)
    (w : World) (pre : list Event) (ev : Event) :
  (exists l, events (snd (c w)) = pre ++ ev :: l) ->
  (forall a, grows (k a)) ->
  (forall e, grows (handler e)) ->
  exists l, events (snd (try_except (bind c k) handler w)) = pre ++ ev :: l.
Proof.
  intros [l Hl] Hk Hh. unfold try_except, bind.
  destruct (c w) as [[a|e] w1]; cbn [snd] in Hl.
  - destruct (Hk a w1) as [l1 H1].
    destruct (k a w1) as [[b|e] w2]; cbn [snd] in *.
    + exists (l ++ l1). now rewrite H1, Hl, <- app_assoc.
    + destruct (Hh e w2) as [l2 H2]. exists (l ++ l1 ++ l2).
      now rewrite H2, H1, Hl, <- !app_assoc.
  - destruct (Hh e w1) as [l1 H1]. exists (l ++ l1).
    now rewrite H1, Hl, <- app_assoc.
Qed.

Lemma count_requests_keeps (method : str) (pre l : list Event) (ev : Event) :
  is_request method ev = true ->
  (0 < count_requests method (pre ++ ev :: l))%nat.
Proof.
  intros H. rewrite count_requests_app. unfold count_requests at 2.
  cbn [filter]. rewrite H. cbn [List.length]. lia.
Qed.

(** The script makes a status query exactly when [doPostTransfer] returned a
    [str]. *)
Lemma run_queries_iff (cfg : Config) (rs : list Reply) :
  (0 < count_requests (lit "GET") (events (run cfg rs)))%nat <->
  exists l,
    fst (doPostTransfer cfg (transferRequestUrl cfg) (buildTransferRequest cfg)
           (mqWebUserId cfg) (mqWebPassword cfg)
           {| replies := rs; events := [] |}) = Return (PyStr l).
Proof.
  pose proof (doPostTransfer_makes_no_get cfg (transferRequestUrl cfg)
                (buildTransferRequest cfg) (mqWebUserId cfg)
                (mqWebPassword cfg) rs []) as Hno.
  pose proof (fun v =>
                doPostTransfer_returns_str_or_int cfg (transferRequestUrl cfg)
                  (buildTransferRequest cfg) (mqWebUserId cfg)
                  (mqWebPassword cfg) {| replies := rs; events := [] |} v)
    as Hty.
  pose proof (fun l =>
                proj1 (doPostTransfer_returns_str cfg (transferRequestUrl cfg)
                         (buildTransferRequest cfg) (mqWebUserId cfg)
                         (mqWebPassword cfg) rs [] l)) as Hstr.
  destruct (doPostTransfer cfg (transferRequestUrl cfg)
              (buildTransferRequest cfg) (mqWebUserId cfg) (mqWebPassword cfg)
              {| replies := rs; events := [] |}) as [[v|e] w1] eqn:E;
    cbn [fst snd] in *;
    change (count_requests (lit "GET") []) with 0%nat in Hno.
  - destruct (Hty v eq_refl) as [[l ->] | [n ->]].
    + split; [intros _; now exists l | intros _].
      destruct (Hstr l eq_refl) as (hdrs & r & rest & Hh & -> & Hs & Hl).
      unfold run. rewrite (main_accepted cfg hdrs l r rest Hh Hs Hl).
      match goal with
      | |- context [try_except (bind ?c ?k) ?h ?w] =>
          destruct (try_bind_keeps c k h w (events w)
                      (Requested (mqWebServer cfg) (mqWebServerPort cfg)
                         (lit "GET") (l ++ lit "?attributes=*") (lit "") hdrs))
            as [l' Hl']
      end.
      * apply doGetTransferStatus_requests; [|exact Hh].
        apply constructs_again. cbn [events].
        apply (connected_after_request _ _ _ _ _ _ []).
      * intros a. grows_steps.
      * intros e. apply grows_emit.
      * rewrite Hl'. apply count_requests_keeps. reflexivity.
    + rewrite (run_post_not_str cfg rs (PyInt n) w1 E eq_refl).
      rewrite Hno. split; [lia|].
      intros [l Hl]. discriminate Hl.
  - rewrite (run_post_raises cfg rs e w1 E). cbn [events].
    rewrite count_requests_app, Hno.
    change (count_requests (lit "GET") [PrintedExn e]) with 0%nat.
    split; [lia|]. intros [l Hl]. discriminate Hl.
Qed.

(** C10 (as the code has it). [doPostTransfer] returns a [str], the
    [location] header, exactly when the server answered with status 202 and
    that header; it returns an [int], the status, exactly when the server
    answered with another status; and the script makes a status query
    exactly when what [doPostTransfer] returned is a [str]. *)
Theorem return_type_decides_the_query (cfg : Config) (rs : list Reply) :
  let o :=
    fst (doPostTransfer cfg (transferRequestUrl cfg) (buildTransferRequest cfg)
           (mqWebUserId cfg) (mqWebPassword cfg)
           {| replies := rs; events := [] |}) in
  (forall l,
     o = Return (PyStr l) <->
     exists hdrs r rest,
       buildHTTPHeaders (mqWebUserId cfg) (mqWebPassword cfg) = Return hdrs /\
       rs = Answers r :: rest /\
       status r = ACCEPTED /\
       getheader r (lit "location") = Some l) /\
  (forall n,
     o = Return (PyInt n) <->
     exists hdrs r rest,
       buildHTTPHeaders (mqWebUserId cfg) (mqWebPassword cfg) = Return hdrs /\
       rs = Answers r :: rest /\
       status r <> ACCEPTED /\
       n = status r) /\
  ((0 < count_requests (lit "GET") (events (run cfg rs)))%nat <->
   exists l, o = Return (PyStr l)).
Proof.
  cbv zeta. split; [|split].
  - intros l. apply doPostTransfer_returns_str.
  - intros n. apply doPostTransfer_returns_int.
  - apply run_queries_iff.
Qed.

(** C10, as stated, fails: the answer has status 202 and yet
    [doPostTransfer] returns no [str]; without a [location] header it
    returns nothing at all. *)
Lemma accepted_may_return_nothing :
  status accepted_without_location = ACCEPTED /\
  forall v,
    fst (doPostTransfer source_config (transferRequestUrl source_config)
           (buildTransferRequest source_config) (mqWebUserId source_config)
           (mqWebPassword source_config)
           {| replies := [Answers accepted_without_location];
              events := [] |}) <> Return v.
Proof. split; [reflexivity|]. intros v. vm_compute. discriminate. Qed.

(** ** The transfer request *)

(** Closed pieces of text are computed, then the pieces are joined. *)
Ltac compute_texts :=
  repeat match goal with
         | |- context [json_string (lit ?s)] =>
             let v := eval vm_compute in (json_string (lit s)) in
             change (json_string (lit s)) with v
         | |- context [json_lit ?s] =>
             let v := eval vm_compute in (json_lit s) in
             change (json_lit s) with v
         | |- context [lit ?s] =>
             let v := eval vm_compute in (lit s) in
             change (lit s) with v
         end.

(** ** Reading the request back *)

Lemma hex_value_digit (d : N) :
  (d < 16)%N -> hex_value (hex_digit d) = Some d.
Proof.
  intros Hd. unfold hex_digit, hex_value.
  destruct (d <? 10)%N eqn:H10.
  - apply N.ltb_lt in H10.
    replace (48 <=? 48 + d)%N with true by (symmetry; apply N.leb_le; lia).
    replace (48 + d <=? 57)%N with true by (symmetry; apply N.leb_le; lia).
    cbn [andb]. f_equal. lia.
  - apply N.ltb_ge in H10.
    replace (48 <=? 87 + d)%N with true by (symmetry; apply N.leb_le; lia).
    replace (87 + d <=? 57)%N with false by (symmetry; apply N.leb_gt; lia).
    replace (97 <=? 87 + d)%N with true by (symmetry; apply N.leb_le; lia).
    replace (87 + d <=? 102)%N with true by (symmetry; apply N.leb_le; lia).
    cbn [andb]. f_equal. lia.
Qed.

Lemma nibble_bound (n : N) : (N.land n 15 < 16)%N.
Proof.
  change 15%N with (N.ones 4). rewrite N.land_ones.
  apply N.mod_lt. discriminate.
Qed.

(** The four digits of [hex4] give the number back. *)
Lemma hex4_value (n : N) :
  (n < 65536)%N ->
  (((N.land (N.shiftr n 12) 15 * 16 + N.land (N.shiftr n 8) 15) * 16
    + N.land (N.shiftr n 4) 15) * 16 + N.land n 15 = n)%N.
Proof.
  intros Hn. change 15%N with (N.ones 4). rewrite !N.land_ones.
  rewrite !N.shiftr_div_pow2.
  change (2 ^ 12)%N with 4096%N. change (2 ^ 8)%N with 256%N.
  change (2 ^ 4)%N with 16%N.
  zify. Z.to_euclidean_division_equations. lia.
Qed.

Lemma lex_run_hex4 (n : N) (acc : str) (high : option codepoint)
    (toks : list token) (rest : str) :
  (n < 65536)%N ->
  lex_run (hex4 n ++ rest) (Hex acc high 4 0%N, toks) =
  lex_run rest (unit_read acc high n, toks).
Proof.
  intros Hn. unfold hex4. cbn [app lex_run lex_step].
  rewrite !hex_value_digit by apply nibble_bound.
  cbn [lex_run lex_step].
  rewrite !hex_value_digit by apply nibble_bound.
  cbn [lex_run lex_step].
  rewrite !hex_value_digit by apply nibble_bound.
  cbn [lex_run lex_step].
  rewrite !hex_value_digit by apply nibble_bound.
  change (0 * 16 + N.land (N.shiftr n 12) 15)%N
    with (N.land (N.shiftr n 12) 15).
  now rewrite (hex4_value n Hn).
Qed.

(** Below 1024 the halves of a pair are sums. *)
Lemma surrogate_halves (x : N) :
  (x < 1024)%N ->
  N.lor 0xD800 x = (0xD800 + x)%N /\ N.lor 0xDC00 x = (0xDC00 + x)%N.
Proof.
  intros Hx.
  assert (Hall :
    forallb (fun x => (N.lor 0xD800 x =? 0xD800 + x)%N
                      && (N.lor 0xDC00 x =? 0xDC00 + x)%N)
      (map N.of_nat (seq 0 1024)) = true) by (vm_compute; reflexivity).
  rewrite forallb_forall in Hall.
  assert (Hin : In x (map N.of_nat (seq 0 1024))).
  { apply in_map_iff. exists (N.to_nat x). split; [apply N2Nat.id|].
    apply in_seq. lia. }
  apply Hall in Hin. apply andb_true_iff in Hin as [H1 H2].
  now apply N.eqb_eq in H1, H2.
Qed.

Lemma lex_run_u (acc : str) (high : option codepoint) (toks : list token)
    (rest : str) :
  lex_run (backslash :: 117%N :: rest) (Inside acc high, toks) =
  lex_run rest (Hex acc high 4 0%N, toks).
Proof. reflexivity. Qed.

(** One character of a name, escaped by [json.dumps] and read back. *)
Lemma lex_run_escape (c : codepoint) (acc : str) (toks : list token)
    (rest : str) :
  scalar c = true ->
  lex_run (json_escape_char c ++ rest) (Inside acc None, toks) =
  lex_run rest (Inside (c :: acc) None, toks).
Proof.
  intros Hc. unfold scalar in Hc. apply andb_true_iff in Hc as [Hmax Hsur].
  apply N.ltb_lt in Hmax. apply negb_true_iff in Hsur.
  unfold json_escape_char.
  destruct (c =? dquote)%N eqn:E1;
    [apply N.eqb_eq in E1; subst c; reflexivity|].
  destruct (c =? backslash)%N eqn:E2;
    [apply N.eqb_eq in E2; subst c; reflexivity|].
  destruct (c =? 10)%N eqn:E3; [apply N.eqb_eq in E3; subst c; reflexivity|].
  destruct (c =? 13)%N eqn:E4; [apply N.eqb_eq in E4; subst c; reflexivity|].
  destruct (c =? 9)%N eqn:E5; [apply N.eqb_eq in E5; subst c; reflexivity|].
  destruct (c =? 12)%N eqn:E6; [apply N.eqb_eq in E6; subst c; reflexivity|].
  destruct (c =? 8)%N eqn:E7; [apply N.eqb_eq in E7; subst c; reflexivity|].
  destruct ((32 <=? c) && (c <=? 126))%N eqn:E8.
  - apply andb_true_iff in E8 as [Hlo _]. apply N.leb_le in Hlo.
    cbn [app lex_run lex_step flush]. rewrite E1, E2.
    replace (c <? 32)%N with false by (symmetry; apply N.ltb_ge; lia).
    reflexivity.
  - destruct (c <? 65536)%N eqn:E9.
    + apply N.ltb_lt in E9.
      change (([backslash; 117%N] ++ hex4 c) ++ rest)
        with (backslash :: 117%N :: hex4 c ++ rest).
      rewrite lex_run_u.
      rewrite (lex_run_hex4 c acc None toks rest E9).
      unfold unit_read, is_high. unfold is_surrogate in Hsur.
      destruct (55296 <=? c)%N eqn:Hlo; [|reflexivity].
      cbn [andb] in Hsur |- *. apply N.leb_le in Hlo. apply N.leb_gt in Hsur.
      replace (c <=? 56319)%N with false by (symmetry; apply N.leb_gt; lia).
      reflexivity.
    + apply N.ltb_ge in E9. cbv zeta.
      set (v := (c - 65536)%N).
      assert (Hv : (v < 1048576)%N) by (unfold v; lia).
      assert (Hq : (N.land (N.shiftr v 10) 1023 = v / 1024)%N).
      { change 1023%N with (N.ones 10). rewrite N.land_ones.
        rewrite N.shiftr_div_pow2. change (2 ^ 10)%N with 1024%N.
        apply N.mod_small. zify. Z.to_euclidean_division_equations. lia. }
      assert (Hr : (N.land v 1023 = v mod 1024)%N).
      { change 1023%N with (N.ones 10). now rewrite N.land_ones. }
      assert (Hqb : (v / 1024 < 1024)%N)
        by (zify; Z.to_euclidean_division_equations; lia).
      assert (Hrb : (v mod 1024 < 1024)%N) by (apply N.mod_lt; discriminate).
      rewrite Hq, Hr.
      rewrite (proj1 (surrogate_halves _ Hqb)).
      rewrite (proj2 (surrogate_halves _ Hrb)).
      set (hi := (55296 + v / 1024)%N). set (lo := (56320 + v mod 1024)%N).
      change (([backslash; 117%N] ++ hex4 hi ++ [backslash; 117%N] ++ hex4 lo)
              ++ rest)
        with (backslash :: 117%N :: hex4 hi ++
              (backslash :: 117%N :: hex4 lo ++ rest)).
      rewrite <- ?app_assoc.
      rewrite lex_run_u.
      rewrite lex_run_hex4 by (unfold hi; lia).
      assert (Hhi : is_high hi = true).
      { unfold is_high, hi. apply andb_true_iff.
        split; apply N.leb_le; lia. }
      assert (Hlo : is_low lo = true).
      { unfold is_low, lo. apply andb_true_iff.
        split; apply N.leb_le; lia. }
      unfold unit_read at 1. rewrite Hhi.
      rewrite lex_run_u.
      rewrite lex_run_hex4 by (unfold lo; lia).
      unfold unit_read. rewrite Hlo.
      replace (65536 + (hi - 55296) * 1024 + (lo - 56320))%N with c; [reflexivity|].
      unfold hi, lo, v. zify. Z.to_euclidean_division_equations. lia.
Qed.

Lemma lex_run_escaped (s : str) (acc : str) (toks : list token) (rest : str) :
  valid_text s ->
  lex_run (flat_map json_escape_char s ++ rest) (Inside acc None, toks) =
  lex_run rest (Inside (rev s ++ acc) None, toks).
Proof.
  unfold valid_text. revert acc.
  induction s as [|c s IH]; intros acc Hs; cbn [flat_map forallb] in *.
  - reflexivity.
  - apply andb_true_iff in Hs as [Hc Hs].
    rewrite <- app_assoc, (lex_run_escape c acc toks _ Hc), (IH _ Hs).
    cbn [rev]. now rewrite <- app_assoc.
Qed.

(** A name, as [json.dumps] writes it, is read back as that name. *)
Lemma lex_run_json_string (s : str) (toks : list token) (rest : str) :
  valid_text s ->
  lex_run (json_string s ++ rest) (Outside, toks) =
  lex_run rest (Outside, TString s :: toks).
Proof.
  intros Hs. unfold json_string.
  change (([dquote] ++ flat_map json_escape_char s ++ [dquote]) ++ rest)
    with (dquote :: (flat_map json_escape_char s ++ [dquote]) ++ rest).
  rewrite <- app_assoc. cbn [lex_run lex_step].
  change (dquote =? dquote)%N with true. cbv iota.
  rewrite (lex_run_escaped s [] toks _ Hs).
  cbn [app lex_run lex_step flush]. change (dquote =? dquote)%N with true.
  cbv iota. now rewrite app_nil_r, rev_involutive.
Qed.

Lemma lex_run_punct (c : codepoint) (t : token) (toks : list token)
    (rest : str) :
  In (c, t) [(123%N, TBeginObject); (125%N, TEndObject); (91%N, TBeginArray);
             (93%N, TEndArray); (58%N, TColon); (44%N, TComma)] ->
  lex_run (c :: rest) (Outside, toks) = lex_run rest (Outside, t :: toks).
Proof.
  cbn [In]. intros H.
  repeat (destruct H as [H|H]; [injection H as <- <-; reflexivity|]).
  destruct H.
Qed.

Lemma lex_run_space (toks : list token) (rest : str) :
  lex_run (32%N :: rest) (Outside, toks) = lex_run rest (Outside, toks).
Proof. reflexivity. Qed.

Ltac lex_chunk :=
  first
    [ rewrite lex_run_json_string by (assumption || reflexivity)
    | rewrite lex_run_space
    | erewrite lex_run_punct
        by (cbn [In]; repeat (first [left; reflexivity | right])) ].

Lemma lex_buildTransferRequest (cfg : Config) :
  valid_names cfg ->
  lex (buildTransferRequest cfg) = Some (request_tokens cfg).
Proof.
  intros (H1 & H2 & H3 & H4 & H5 & H6 & H7 & H8).
  unfold lex. rewrite <- (app_nil_r (buildTransferRequest cfg)).
  unfold buildTransferRequest, transferRequest. cbn [json_dumps].
  change (lit "{") with [123%N]. change (lit "}") with [125%N].
  change (lit "[") with [91%N]. change (lit "]") with [93%N].
  change (lit ": ") with [58%N; 32%N]. change (lit ", ") with [44%N; 32%N].
  rewrite <- !app_assoc. cbn [app].
  repeat lex_chunk.
  reflexivity.
Qed.

Lemma json_read_buildTransferRequest (cfg : Config) :
  valid_names cfg ->
  json_read (buildTransferRequest cfg) = Some (transferRequest cfg).
Proof.
  intros Hcfg. unfold json_read. rewrite (lex_buildTransferRequest cfg Hcfg).
  reflexivity.
Qed.

(** C9. For every configuration [buildTransferRequest] yields the
    serialization of one object with [sourceAgent] and [destinationAgent],
    each an owner ([qmgrName]) and a [name], and [transferSet], whose [item]
    array holds exactly one item, the configured pair, with a [source] and a
    [destination] that each have a [name] and a [type].  The text is a
    function of the configuration alone, written out here with its fields;
    and when the names are texts (no lone surrogates), reading the text back
    as [json.loads] does gives that object again, whatever quotes,
    backslashes, control characters or characters outside ASCII the names
    hold. *)
Theorem buildTransferRequest_shape (cfg : Config) :
  buildTransferRequest cfg = json_dumps (transferRequest cfg) /\
  is_descriptor (transferRequest cfg) = true /\
  descriptor_items (transferRequest cfg) =
    Some [PyDict [(lit "source",
                   PyDict [(lit "name", PyStr (sourceItemName cfg));
                           (lit "type", PyStr (sourceItemType cfg))]);
                  (lit "destination",
                   PyDict [(lit "name", PyStr (destinationItemName cfg));
                           (lit "type", PyStr (destinationItemType cfg))])]] /\
  getitem (transferRequest cfg) (lit "sourceAgent") =
    Return (PyDict [(lit "qmgrName", PyStr (sourceQMName cfg));
                    (lit "name", PyStr (sourceAgentName cfg))]) /\
  getitem (transferRequest cfg) (lit "destinationAgent") =
    Return (PyDict [(lit "qmgrName", PyStr (destinationQMName cfg));
                    (lit "name", PyStr (destinationAgentName cfg))]) /\
  buildTransferRequest cfg =
    json_lit "{'sourceAgent': {'qmgrName': "
      ++ json_string (sourceQMName cfg)
      ++ json_lit ", 'name': "
      ++ json_string (sourceAgentName cfg)
      ++ json_lit "}, 'destinationAgent': {'qmgrName': "
      ++ json_string (destinationQMName cfg)
      ++ json_lit ", 'name': "
      ++ json_string (destinationAgentName cfg)
      ++ json_lit "}, 'transferSet': {'item': [{'source': {'name': "
      ++ json_string (sourceItemName cfg)
      ++ json_lit ", 'type': "
      ++ json_string (sourceItemType cfg)
      ++ json_lit "}, 'destination': {'name': "
      ++ json_string (destinationItemName cfg)
      ++ json_lit ", 'type': "
      ++ json_string (destinationItemType cfg)
      ++ json_lit "}}]}}" /\
  (valid_names cfg ->
   json_read (buildTransferRequest cfg) = Some (transferRequest cfg)).
Proof.
  repeat split.
  - unfold buildTransferRequest, transferRequest. cbn [json_dumps].
    rewrite <- !app_assoc. compute_texts. cbn [app]. reflexivity.
  - apply json_read_buildTransferRequest; repeat split; assumption.
Qed.

Lemma buildTransferRequest_shape_witness :
  valid_names quoted_config /\
  json_read (buildTransferRequest quoted_config) =
    Some (transferRequest quoted_config) /\
  buildTransferRequest quoted_config =
    json_lit "{'sourceAgent': {'qmgrName': 'SRCQM', 'name': 'S\'R\\C'}, 'destinationAgent': {'qmgrName': 'DESTQM', 'name': 'DEST'}, 'transferSet': {'item': [{'source': {'name': '/usr/\u00e9\ud83d\ude00\n', 'type': 'file'}, 'destination': {'name': '/usr/destdir', 'type': 'directory'}}]}}".
Proof.
  assert (Hnames : valid_names quoted_config) by (repeat split; reflexivity).
  destruct (buildTransferRequest_shape quoted_config)
    as (_ & _ & _ & _ & _ & Htext & Hread).
  split; [exact Hnames|]. split; [exact (Hread Hnames)|].
  rewrite Htext. vm_compute. reflexivity.
Defined.

(** ** No validation of the settings *)

(** [doPostTransfer] first of all makes its POST request. *)
Lemma doPostTransfer_requests (cfg : Config) (url body userId password : str)
    (hdrs : list (str * str)) (w : World) :
  constructs (mqWebServer cfg) (mqWebServerPort cfg) w ->
  buildHTTPHeaders userId password = Return hdrs ->
  exists l,
    events (snd (doPostTransfer cfg url body userId password w)) =
    events w ++
    Requested (mqWebServer cfg) (mqWebServerPort cfg) (lit "POST") url body
      hdrs :: l.
Proof.
  intros Hc Hh. unfold doPostTransfer.
  rewrite (bind_constructs _ _ _ w Hc), (bind_lift_return _ _ _ w Hh).
  apply request_then_grows. intros c. unfold getresponse. grows_steps.
Qed.

(** C7 (as the code has it). Whatever the names in the settings, empty
    strings included, [buildTransferRequest] returns the serialized request,
    with the one item pair of the settings; nothing checks the names.  When
    the connection gets built and the credentials can be encoded, the
    script starts by sending that request in its POST. *)
Theorem settings_are_sent_unchecked (cfg : Config) (rs : list Reply)
    (hdrs : list (str * str)) :
  connection_built cfg {| replies := rs; events := [] |} ->
  buildHTTPHeaders (mqWebUserId cfg) (mqWebPassword cfg) = Return hdrs ->
  buildTransferRequest cfg = json_dumps (transferRequest cfg) /\
  (exists item, descriptor_items (transferRequest cfg) = Some [item]) /\
  exists l,
    events (run cfg rs) =
    Requested (mqWebServer cfg) (mqWebServerPort cfg) (lit "POST")
      (transferRequestUrl cfg) (buildTransferRequest cfg) hdrs :: l.
Proof.
  intros [_ Hc] Hh. split; [reflexivity|]. split; [eexists; reflexivity|].
  unfold run, main. cbv zeta.
  match goal with
  | |- context [try_except (bind ?c ?k) ?h ?w] =>
      apply (try_bind_keeps c k h w [])
  end.
  - exact (doPostTransfer_requests cfg (transferRequestUrl cfg)
             (buildTransferRequest cfg) (mqWebUserId cfg) (mqWebPassword cfg)
             hdrs {| replies := rs; events := [] |} Hc Hh).
  - intros v. grows_steps.
  - intros e. apply grows_emit.
Qed.

Lemma settings_are_sent_unchecked_witness :
  buildTransferRequest unnamed_source_config =
    json_dumps (transferRequest unnamed_source_config) /\
  (exists item,
     descriptor_items (transferRequest unnamed_source_config) = Some [item]) /\
  exists l,
    events (run unnamed_source_config [Answers accepted_reply]) =
    Requested (mqWebServer unnamed_source_config)
      (mqWebServerPort unnamed_source_config) (lit "POST")
      (transferRequestUrl unnamed_source_config)
      (buildTransferRequest unnamed_source_config) source_headers :: l.
Proof.
  apply (settings_are_sent_unchecked unnamed_source_config
           [Answers accepted_reply] source_headers).
  - split; [vm_compute; reflexivity | reflexivity].
  - vm_compute. reflexivity.
Defined.

(** C7, as stated, fails.  With the name of the source agent empty,
    [buildTransferRequest] returns a request that carries the empty name,
    and the script sends it: its first event is the POST request, and after
    the answer it goes on to query the status. *)
Lemma empty_agent_name_is_sent :
  sourceAgentName unnamed_source_config = lit "" /\
  buildTransferRequest unnamed_source_config =
    json_lit "{'sourceAgent': {'qmgrName': 'SRCQM', 'name': ''}, 'destinationAgent': {'qmgrName': 'DESTQM', 'name': 'DEST'}, 'transferSet': {'item': [{'source': {'name': '/usr/srcdir', 'type': 'file'}, 'destination': {'name': '/usr/destdir', 'type': 'directory'}}]}}" /\
  events (run unnamed_source_config
            [Answers accepted_reply; Answers completed_reply]) =
    [Requested (lit "localhost") 8080 (lit "POST")
       (lit "/ibmmq/rest/v2/admin/mft/transfer")
       (buildTransferRequest unnamed_source_config) source_headers;
     Printed (lit "Posted transfer request successfully");
     Printed (lit "Transfer requested accepted. Status URL "
                ++ sample_location);
     Requested (lit "localhost") 8080 (lit "GET")
       (sample_location ++ lit "?attributes=*") (lit "") source_headers;
     Printed (lit "Status of transfer request with Id 414d51204d46544453542020 is completed")].
Proof. repeat split; vm_compute; reflexivity. Qed.

(** ** Reporting the failed items *)

(** One turn of the loop: a failed item has its description printed, any
    other item leaves no trace. *)
Lemma report_item_reports (item : value) (report : str * str) (w : World) :
  item_reports item report ->
  (str_eqb (fst report) (lit "failed") = true -> encodable (snd report)) ->
  report_item item w =
  (Return tt,
   {| replies := replies w;
      events :=
        events w ++
        (if str_eqb (fst report) (lit "failed")
         then [Printed (lit "Error: " ++ snd report)]
         else []) |}).
Proof.
  intros (fields & st & -> & Hst & Hstate & Hdesc) Henc.
  destruct w as [rs evs].
  unfold report_item. cbn [getitem]. rewrite Hst. monad_steps.
  cbn [getitem]. rewrite Hstate. monad_steps. cbn [eq_str].
  destruct (str_eqb (fst report) (lit "failed")) eqn:Hf.
  - specialize (Henc eq_refl). monad_steps. cbn [getitem].
    rewrite (Hdesc eq_refl). cbn [concat]. monad_steps. reflexivity.
  - monad_steps. now rewrite app_nil_r.
Qed.

Lemma for_each_report_item (items : list value) (reports : list (str * str)) :
  Forall2 item_reports items reports ->
  Forall encodable (failed_descriptions reports) ->
  forall w,
    for_each items report_item w =
    (Return tt,
     {| replies := replies w;
        events :=
          events w ++
          map (fun d => Printed (lit "Error: " ++ d))
            (failed_descriptions reports) |}).
Proof.
  induction 1 as [|item report items reports Hitem _ IH]; intros Henc w.
  - cbn. rewrite app_nil_r. now destruct w.
  - cbn [for_each]. unfold bind.
    assert (Hhead : str_eqb (fst report) (lit "failed") = true ->
                    encodable (snd report)).
    { intros Hf. unfold failed_descriptions in Henc. cbn [filter] in Henc.
      rewrite Hf in Henc. cbn [map] in Henc. now inversion Henc. }
    assert (Htail : Forall encodable (failed_descriptions reports)).
    { unfold failed_descriptions in *. cbn [filter] in Henc.
      destruct (str_eqb (fst report) (lit "failed"));
        [cbn [map] in Henc; now inversion Henc | exact Henc]. }
    rewrite (report_item_reports item report w Hitem Hhead), (IH Htail).
    cbn [replies events]. unfold failed_descriptions. cbn [filter].
    destruct (str_eqb (fst report) (lit "failed")); cbn [map].
    + now rewrite <- app_assoc.
    + now rewrite app_nil_r.
Qed.

(** C6 (as the code has it). The status query is answered with 200 and a
    document whose overall state is [failed] and whose [transferSet.item]
    array holds items of any states, each failed one with a description.
    When standard output can encode the id of the transfer and the
    descriptions of the failed items, [doGetTransferStatus] prints the
    status line and then one [Error:] line for every item whose own state
    is [failed], in order, with that item's description, and nothing for
    the other items; it returns 200. *)
Theorem failed_items_are_reported (cfg : Config) (url userId password : str)
    (hdrs : list (str * str)) (r : HTTPResponse) (rest : list Reply)
    (evs : list Event) (doc : value) (transferId : str) (items : list value)
    (reports : list (str * str)) :
  buildHTTPHeaders userId password = Return hdrs ->
  status r = OK ->
  document r = Return doc ->
  status_document doc transferId (lit "failed") items ->
  Forall2 item_reports items reports ->
  encodable transferId ->
  Forall encodable (failed_descriptions reports) ->
  doGetTransferStatus cfg url userId password
    {| replies := Answers r :: rest; events := evs |} =
  (Return OK,
   {| replies := rest;
      events :=
        evs ++
        [Requested (mqWebServer cfg) (mqWebServerPort cfg) (lit "GET") url
           (lit "") hdrs;
         Printed (lit "Status of transfer request with Id " ++ transferId
                    ++ lit " is " ++ lit "failed")] ++
        map (fun d => Printed (lit "Error: " ++ d))
          (failed_descriptions reports) |}).
Proof.
  intros Hh Hs Hdoc Hshape Hitems Hid_enc Henc.
  destruct Hshape as (top & entry & more & fields & st & ts & -> & Htr & ->
                      & Hid & Hst & Hstate & Hts & Hit).
  assert (Hfirst : first_transfer (PyDict top) = Return (PyDict fields)).
  { unfold first_transfer. cbn [getitem]. now rewrite Htr. }
  unfold doGetTransferStatus. monad_steps. rewrite Hh. monad_steps.
  rewrite Hs. cbn [Z.eqb OK Pos.eqb negb]. rewrite Hdoc. monad_steps.
  rewrite Hfirst. monad_steps. cbn [getitem]. rewrite Hid. monad_steps.
  rewrite Hst. monad_steps. cbn [getitem]. rewrite Hstate. monad_steps.
  cbn [concat]. monad_steps.
  replace (eq_str (PyStr (lit "failed")) (lit "failed")) with true
    by (symmetry; apply str_eqb_refl).
  monad_steps. cbn [contains]. rewrite Hts. monad_steps.
  cbn [getitem]. rewrite Hit. monad_steps. cbn [iterate]. monad_steps.
  rewrite (for_each_report_item items reports Hitems Henc).
  cbn [replies events]. rewrite <- !app_assoc. reflexivity.
Qed.

Lemma failed_items_are_reported_witness :
  doGetTransferStatus source_config (sample_location ++ lit "?attributes=*")
    (lit "mftuser") (lit "mftpassw0rd")
    {| replies := [Answers failed_reply]; events := [] |} =
  (Return OK,
   {| replies := [];
      events :=
        [] ++
        [Requested (mqWebServer source_config) (mqWebServerPort source_config)
           (lit "GET") (sample_location ++ lit "?attributes=*") (lit "")
           source_headers;
         Printed (lit "Status of transfer request with Id "
                    ++ lit "414d51204d46544453542020"
                    ++ lit " is " ++ lit "failed")] ++
        map (fun d => Printed (lit "Error: " ++ d))
          (failed_descriptions
             [(lit "failed", lit "disk full"); (lit "successful", lit "")]) |}).
Proof.
  apply (failed_items_are_reported source_config
           (sample_location ++ lit "?attributes=*") (lit "mftuser")
           (lit "mftpassw0rd") source_headers failed_reply [] []
           failed_document (lit "414d51204d46544453542020") failed_items
           [(lit "failed", lit "disk full"); (lit "successful", lit "")]).
  - vm_compute. reflexivity.
  - reflexivity.
  - reflexivity.
  - unfold status_document, failed_document.
    eexists _, _, _, _, _, _.
    repeat split; try reflexivity; vm_compute; reflexivity.
  - unfold failed_items. repeat constructor.
    + eexists _, _. repeat split; try reflexivity.
    + eexists _, _. repeat split; try reflexivity.
      vm_compute. discriminate.
  - vm_compute. reflexivity.
  - repeat constructor.
Defined.

(** C6, as stated, fails.  The failed item's description is a lone
    surrogate, which the JSON escape [\ud800] gives: [print] cannot encode
    its [Error:] line, so [doGetTransferStatus] prints the status line only
    and raises [UnicodeEncodeError]; the description is not surfaced and 200
    is not returned. *)
Lemma unencodable_description_is_not_reported :
  doGetTransferStatus source_config (sample_location ++ lit "?attributes=*")
    (lit "mftuser") (lit "mftpassw0rd")
    {| replies := [Answers unencodable_reply]; events := [] |} =
  (Raise UnicodeEncodeError,
   {| replies := [];
      events :=
        [Requested (lit "localhost") 8080 (lit "GET")
           (sample_location ++ lit "?attributes=*") (lit "") source_headers;
         Printed (lit "Status of transfer request with Id 414d51204d46544453542020 is failed")] |}).
Proof. vm_compute. reflexivity. Qed.

(** * Further properties *)

(** ** The status query on a 200 reply *)

(** Up to the status line: what is left is the inspection of the items. *)
Lemma doGetTransferStatus_entry (cfg : Config) (url userId password : str)
    (hdrs : list (str * str)) (r : HTTPResponse) (rest : list Reply)
    (evs : list Event) (doc : value) (fields : list (str * value))
    (transferId state : str) :
  buildHTTPHeaders userId password = Return hdrs ->
  status r = OK ->
  document r = Return doc ->
  status_entry doc fields transferId state ->
  encodable transferId ->
  encodable state ->
  doGetTransferStatus cfg url userId password
    {| replies := Answers r :: rest; events := evs |} =
  ((if str_eqb state (lit "failed") then
      present <- lift (contains (lit "transferSet") (PyDict fields)) ;;
      if present then
        transferSet <- lift (getitem (PyDict fields) (lit "transferSet")) ;;
        transferSetItems <- lift (getitem transferSet (lit "item")) ;;
        items <- lift (iterate transferSetItems) ;;
        for_each items report_item
      else ret tt
    else ret tt) ;;
   ret OK)
    {| replies := rest;
       events :=
         evs ++
         [Requested (mqWebServer cfg) (mqWebServerPort cfg) (lit "GET") url
            (lit "") hdrs;
          Printed (lit "Status of transfer request with Id " ++ transferId
                     ++ lit " is " ++ state)] |}.
Proof.
  intros Hh Hs Hdoc (top & more & st & -> & Htr & Hid & Hst & Hstate)
    Henc_id Henc_state.
  assert (Hfirst : first_transfer (PyDict top) = Return (PyDict fields)).
  { unfold first_transfer. cbn [getitem]. now rewrite Htr. }
  unfold doGetTransferStatus. monad_steps. rewrite Hh. monad_steps.
  rewrite Hs. cbn [Z.eqb OK Pos.eqb negb]. rewrite Hdoc. monad_steps.
  rewrite Hfirst. monad_steps. cbn [getitem]. rewrite Hid. monad_steps.
  rewrite Hst. monad_steps. cbn [getitem]. rewrite Hstate. monad_steps.
  cbn [concat eq_str]. monad_steps. rewrite <- !app_assoc. cbn [app].
  reflexivity.
Qed.

(** X1. A 200 reply whose overall state is anything but [failed], with an
    id and a state that standard output can encode: [doGetTransferStatus]
    prints the status line and returns 200 without looking at
    [transferSet], whatever that holds. *)
Theorem other_states_are_not_inspected (cfg : Config)
    (url userId password : str) (hdrs : list (str * str)) (r : HTTPResponse)
    (rest : list Reply) (evs : list Event) (doc : value)
    (fields : list (str * value)) (transferId state : str) :
  buildHTTPHeaders userId password = Return hdrs ->
  status r = OK ->
  document r = Return doc ->
  status_entry doc fields transferId state ->
  encodable transferId ->
  encodable state ->
  state <> lit "failed" ->
  doGetTransferStatus cfg url userId password
    {| replies := Answers r :: rest; events := evs |} =
  (Return OK,
   {| replies := rest;
      events :=
        evs ++
        [Requested (mqWebServer cfg) (mqWebServerPort cfg) (lit "GET") url
           (lit "") hdrs;
         Printed (lit "Status of transfer request with Id " ++ transferId
                    ++ lit " is " ++ state)] |}).
Proof.
  intros Hh Hs Hdoc Hentry Hid Hst Hstate.
  rewrite (doGetTransferStatus_entry cfg url userId password hdrs r rest evs
             doc fields transferId state Hh Hs Hdoc Hentry Hid Hst).
  destruct (str_eqb state (lit "failed")) eqn:Hf.
  - apply str_eqb_eq in Hf. contradiction.
  - reflexivity.
Qed.

Lemma other_states_are_not_inspected_witness :
  doGetTransferStatus source_config (sample_location ++ lit "?attributes=*")
    (lit "mftuser") (lit "mftpassw0rd")
    {| replies := [Answers completed_reply]; events := [] |} =
  (Return OK,
   {| replies := [];
      events :=
        [] ++
        [Requested (mqWebServer source_config) (mqWebServerPort source_config)
           (lit "GET") (sample_location ++ lit "?attributes=*") (lit "")
           source_headers;
         Printed (lit "Status of transfer request with Id "
                    ++ lit "414d51204d46544453542020"
                    ++ lit " is " ++ lit "completed")] |}).
Proof.
  apply (other_states_are_not_inspected source_config
           (sample_location ++ lit "?attributes=*") (lit "mftuser")
           (lit "mftpassw0rd") source_headers completed_reply [] []
           (dict [("transfer"%string, PyList [PyDict completed_fields])])
           completed_fields (lit "414d51204d46544453542020")
           (lit "completed")).
  - vm_compute. reflexivity.
  - reflexivity.
  - reflexivity.
  - eexists _, _, _. repeat split; vm_compute; reflexivity.
  - apply lit_plain.
  - apply lit_plain.
  - vm_compute. discriminate.
Defined.

(** X2. A 200 reply whose overall state is [failed] but whose entry has no
    [transferSet], with an id that standard output can encode:
    [doGetTransferStatus] prints the status line only and returns 200. *)
Theorem failed_without_transferSet (cfg : Config)
    (url userId password : str) (hdrs : list (str * str)) (r : HTTPResponse)
    (rest : list Reply) (evs : list Event) (doc : value)
    (fields : list (str * value)) (transferId : str) :
  buildHTTPHeaders userId password = Return hdrs ->
  status r = OK ->
  document r = Return doc ->
  status_entry doc fields transferId (lit "failed") ->
  encodable transferId ->
  dict_get (lit "transferSet") fields = None ->
  doGetTransferStatus cfg url userId password
    {| replies := Answers r :: rest; events := evs |} =
  (Return OK,
   {| replies := rest;
      events :=
        evs ++
        [Requested (mqWebServer cfg) (mqWebServerPort cfg) (lit "GET") url
           (lit "") hdrs;
         Printed (lit "Status of transfer request with Id " ++ transferId
                    ++ lit " is " ++ lit "failed")] |}).
Proof.
  intros Hh Hs Hdoc Hentry Hid Hnone.
  rewrite (doGetTransferStatus_entry cfg url userId password hdrs r rest evs
             doc fields transferId (lit "failed") Hh Hs Hdoc Hentry Hid
             (lit_plain _)).
  rewrite str_eqb_refl. monad_steps. cbn [contains]. rewrite Hnone.
  reflexivity.
Qed.

Lemma failed_without_transferSet_witness :
  doGetTransferStatus source_config (sample_location ++ lit "?attributes=*")
    (lit "mftuser") (lit "mftpassw0rd")
    {| replies := [Answers bare_failed_reply]; events := [] |} =
  (Return OK,
   {| replies := [];
      events :=
        [] ++
        [Requested (mqWebServer source_config) (mqWebServerPort source_config)
           (lit "GET") (sample_location ++ lit "?attributes=*") (lit "")
           source_headers;
         Printed (lit "Status of transfer request with Id "
                    ++ lit "414d51204d46544453542020"
                    ++ lit " is " ++ lit "failed")] |}).
Proof.
  apply (failed_without_transferSet source_config
           (sample_location ++ lit "?attributes=*") (lit "mftuser")
           (lit "mftpassw0rd") source_headers bare_failed_reply [] []
           (dict [("transfer"%string, PyList [PyDict bare_failed_fields])])
           bare_failed_fields (lit "414d51204d46544453542020")).
  - vm_compute. reflexivity.
  - reflexivity.
  - reflexivity.
  - eexists _, _, _. repeat split; vm_compute; reflexivity.
  - apply lit_plain.
  - vm_compute. reflexivity.
Defined.

Lemma for_each_app {A} (a b : list A) (body : A -> M unit) (w : World) :
  for_each (a ++ b) body w = (for_each a body ;; for_each b body) w.
Proof.
  revert w. induction a as [|x a IH]; intros w; cbn [app for_each].
  - reflexivity.
  - unfold bind. destruct (body x w) as [[[]|e] w1]; [|reflexivity].
    rewrite IH. reflexivity.
Qed.

(** A failed item with no description stops the loop. *)
Lemma report_item_undescribed (item : value) (w : World) :
  failed_without_description item ->
  report_item item w = (Raise KeyError, w).
Proof.
  intros (fields & st & -> & Hst & Hstate & Hnone). destruct w as [rs evs].
  unfold report_item. cbn [getitem]. rewrite Hst. monad_steps.
  cbn [getitem]. rewrite Hstate. monad_steps. cbn [eq_str].
  rewrite str_eqb_refl. monad_steps. cbn [getitem]. rewrite Hnone.
  reflexivity.
Qed.

(** X3. A 200 reply whose overall state is [failed] and whose items hold a
    failed one without [description], the id and the descriptions before
    it being text that standard output can encode: [doGetTransferStatus]
    prints the status line and the [Error:] lines of the failed items that
    come before it, then raises [KeyError]; the items after it are not
    reported and nothing is returned. *)
Theorem undescribed_failure_raises (cfg : Config)
    (url userId password : str) (hdrs : list (str * str)) (r : HTTPResponse)
    (rest : list Reply) (evs : list Event) (doc : value)
    (fields ts : list (str * value)) (transferId : str)
    (before after : list value) (bad : value) (reports : list (str * str)) :
  buildHTTPHeaders userId password = Return hdrs ->
  status r = OK ->
  document r = Return doc ->
  status_entry doc fields transferId (lit "failed") ->
  dict_get (lit "transferSet") fields = Some (PyDict ts) ->
  dict_get (lit "item") ts = Some (PyList (before ++ bad :: after)) ->
  Forall2 item_reports before reports ->
  failed_without_description bad ->
  encodable transferId ->
  Forall encodable (failed_descriptions reports) ->
  doGetTransferStatus cfg url userId password
    {| replies := Answers r :: rest; events := evs |} =
  (Raise KeyError,
   {| replies := rest;
      events :=
        evs ++
        [Requested (mqWebServer cfg) (mqWebServerPort cfg) (lit "GET") url
           (lit "") hdrs;
         Printed (lit "Status of transfer request with Id " ++ transferId
                    ++ lit " is " ++ lit "failed")] ++
        map (fun d => Printed (lit "Error: " ++ d))
          (failed_descriptions reports) |}).
Proof.
  intros Hh Hs Hdoc Hentry Hts Hit Hbefore Hbad Hid Henc.
  rewrite (doGetTransferStatus_entry cfg url userId password hdrs r rest evs
             doc fields transferId (lit "failed") Hh Hs Hdoc Hentry Hid
             (lit_plain _)).
  rewrite str_eqb_refl. monad_steps. cbn [contains getitem]. rewrite Hts.
  monad_steps. cbn [getitem]. rewrite Hit. monad_steps. cbn [iterate].
  monad_steps. rewrite for_each_app. unfold bind.
  rewrite (for_each_report_item before reports Hbefore Henc). cbn [for_each].
  unfold bind. rewrite (report_item_undescribed bad _ Hbad).
  cbn [replies events]. rewrite <- !app_assoc. reflexivity.
Qed.

Lemma undescribed_failure_raises_witness :
  doGetTransferStatus source_config (sample_location ++ lit "?attributes=*")
    (lit "mftuser") (lit "mftpassw0rd")
    {| replies := [Answers undescribed_reply]; events := [] |} =
  (Raise KeyError,
   {| replies := [];
      events :=
        [] ++
        [Requested (mqWebServer source_config) (mqWebServerPort source_config)
           (lit "GET") (sample_location ++ lit "?attributes=*") (lit "")
           source_headers;
         Printed (lit "Status of transfer request with Id "
                    ++ lit "414d51204d46544453542020"
                    ++ lit " is " ++ lit "failed")] ++
        map (fun d => Printed (lit "Error: " ++ d))
          (failed_descriptions [(lit "failed", lit "disk full")]) |}).
Proof.
  apply (undescribed_failure_raises source_config
           (sample_location ++ lit "?attributes=*") (lit "mftuser")
           (lit "mftpassw0rd") source_headers undescribed_reply [] []
           (dict [("transfer"%string, PyList [PyDict undescribed_fields])])
           undescribed_fields
           [(lit "item", PyList undescribed_items)]
           (lit "414d51204d46544453542020")
           [item_status [("state"%string, text "failed");
                         ("description"%string, text "disk full")]]
           [item_status [("state"%string, text "failed");
                         ("description"%string, text "no such file")]]
           (item_status [("state"%string, text "failed")])
           [(lit "failed", lit "disk full")]).
  - vm_compute. reflexivity.
  - reflexivity.
  - reflexivity.
  - eexists _, _, _. repeat split; vm_compute; reflexivity.
  - vm_compute. reflexivity.
  - vm_compute. reflexivity.
  - repeat constructor. eexists _, _. repeat split; try reflexivity.
  - eexists _, _. repeat split; vm_compute; reflexivity.
  - apply lit_plain.
  - repeat constructor.
Defined.

(** X4. A 200 reply whose body is not a status document:
    [doGetTransferStatus] raises after its GET request and prints nothing.
    It raises what reading or decoding the body raised; [TypeError] when the
    document is not an object; [KeyError] when the object has no [transfer];
    [IndexError] when [transfer] is an empty array. *)
Theorem malformed_document_raises (cfg : Config) (url userId password : str)
    (hdrs : list (str * str)) (r : HTTPResponse) (rest : list Reply)
    (evs : list Event) :
  buildHTTPHeaders userId password = Return hdrs ->
  status r = OK ->
  let raised e :=
    doGetTransferStatus cfg url userId password
      {| replies := Answers r :: rest; events := evs |} =
    (Raise e,
     {| replies := rest;
        events :=
          evs ++
          [Requested (mqWebServer cfg) (mqWebServerPort cfg) (lit "GET") url
             (lit "") hdrs] |}) in
  (forall e, document r = Raise e -> raised e) /\
  (forall doc,
     document r = Return doc -> (forall d, doc <> PyDict d) ->
     raised TypeError) /\
  (forall d,
     document r = Return (PyDict d) -> dict_get (lit "transfer") d = None ->
     raised KeyError) /\
  (forall d,
     document r = Return (PyDict d) ->
     dict_get (lit "transfer") d = Some (PyList []) ->
     raised IndexError).
Proof.
  intros Hh Hs. cbv zeta.
  assert (Hstart : forall o,
    document r = o ->
    doGetTransferStatus cfg url userId password
      {| replies := Answers r :: rest; events := evs |} =
    match o with
    | Raise e =>
        (Raise e,
         {| replies := rest;
            events :=
              evs ++
              [Requested (mqWebServer cfg) (mqWebServerPort cfg) (lit "GET")
                 url (lit "") hdrs] |})
    | Return doc =>
        match first_transfer doc with
        | Raise e =>
            (Raise e,
             {| replies := rest;
                events :=
                  evs ++
                  [Requested (mqWebServer cfg) (mqWebServerPort cfg)
                     (lit "GET") url (lit "") hdrs] |})
        | Return _ =>
            doGetTransferStatus cfg url userId password
              {| replies := Answers r :: rest; events := evs |}
        end
    end).
  { intros o Ho. destruct o as [doc|e].
    - destruct (first_transfer doc) as [t|e] eqn:Hf; [reflexivity|].
      unfold doGetTransferStatus. monad_steps. rewrite Hh. monad_steps.
      rewrite Hs. cbn [Z.eqb OK Pos.eqb negb]. rewrite Ho. monad_steps.
      rewrite Hf. reflexivity.
    - unfold doGetTransferStatus. monad_steps. rewrite Hh. monad_steps.
      rewrite Hs. cbn [Z.eqb OK Pos.eqb negb]. rewrite Ho. reflexivity. }
  repeat split.
  - intros e He. exact (Hstart _ He).
  - intros doc Hdoc Hnot. rewrite (Hstart _ Hdoc).
    destruct doc; try reflexivity. now destruct (Hnot d).
  - intros d Hdoc Hnone. rewrite (Hstart _ Hdoc).
    unfold first_transfer. cbn [getitem]. now rewrite Hnone.
  - intros d Hdoc Hempty. rewrite (Hstart _ Hdoc).
    unfold first_transfer. cbn [getitem]. now rewrite Hempty.
Qed.

Lemma malformed_document_raises_witness :
  let raised e :=
    doGetTransferStatus source_config (sample_location ++ lit "?attributes=*")
      (lit "mftuser") (lit "mftpassw0rd")
      {| replies := [Answers empty_list_reply]; events := [] |} =
    (Raise e,
     {| replies := [];
        events :=
          [] ++
          [Requested (mqWebServer source_config)
             (mqWebServerPort source_config) (lit "GET")
             (sample_location ++ lit "?attributes=*") (lit "")
             source_headers] |}) in
  (forall e, document empty_list_reply = Raise e -> raised e) /\
  (forall doc,
     document empty_list_reply = Return doc -> (forall d, doc <> PyDict d) ->
     raised TypeError) /\
  (forall d,
     document empty_list_reply = Return (PyDict d) ->
     dict_get (lit "transfer") d = None ->
     raised KeyError) /\
  (forall d,
     document empty_list_reply = Return (PyDict d) ->
     dict_get (lit "transfer") d = Some (PyList []) ->
     raised IndexError).
Proof.
  apply (malformed_document_raises source_config
           (sample_location ++ lit "?attributes=*") (lit "mftuser")
           (lit "mftpassw0rd") source_headers empty_list_reply [] []).
  - vm_compute. reflexivity.
  - reflexivity.
Defined.

(** ** What the status query can return *)

(** Taking apart the matches a run went through. *)
Ltac split_run H :=
  repeat match type of H with
         | fst (match ?x with _ => _ end) = _ =>
             destruct x; try discriminate H
         end.

(** When [doGetTransferStatus] returns, the server had answered with 200
    and that is the value returned. *)
Lemma doGetTransferStatus_returns (cfg : Config) (url userId password : str)
    (w : World) (n : Z) :
  fst (doGetTransferStatus cfg url userId password w) = Return n ->
  exists r rest,
    replies w = Answers r :: rest /\ status r = OK /\ n = status r.
Proof.
  destruct w as [rs evs]. unfold doGetTransferStatus.
  destruct rs as [|[e|e|e|r] rest]; monad_cbv;
    try match goal with
        | |- context [connected_before ?h ?p ?evs] =>
            destruct (connected_before h p evs)
        end;
    monad_cbv;
    destruct (buildHTTPHeaders userId password) as [hdrs|e'];
    monad_cbv; try (intros H; discriminate H).
  destruct (status r =? OK) eqn:Hs; cbn [negb].
  - intros H. apply Z.eqb_eq in Hs. exists r, rest.
    split; [reflexivity|]. split; [exact Hs|].
    split_run H. cbn [fst] in H. now injection H.
  - cbn [concat]. intros H. discriminate H.
Qed.

(** X5. Whatever the server does, a value [doGetTransferStatus] returns is
    200: for any other status it raises, so it never returns 404. *)
Theorem doGetTransferStatus_returns_only_OK (cfg : Config)
    (url userId password : str) (w : World) (n : Z) :
  fst (doGetTransferStatus cfg url userId password w) = Return n ->
  n = OK /\ n <> NOT_FOUND.
Proof.
  intros H.
  destruct (doGetTransferStatus_returns cfg url userId password w n H)
    as (r & rest & _ & Hs & ->).
  rewrite Hs. split; [reflexivity|discriminate].
Qed.

Lemma doGetTransferStatus_returns_only_OK_witness :
  200 = OK /\ 200 <> NOT_FOUND.
Proof.
  apply (doGetTransferStatus_returns_only_OK source_config
           (sample_location ++ lit "?attributes=*") (lit "mftuser")
           (lit "mftpassw0rd")
           {| replies := [Answers completed_reply]; events := [] |} 200).
  vm_compute. reflexivity.
Defined.

(** ** Counting the requests *)

Lemma silent_ret {A} (a : A) : silent (ret a).
Proof. intros w. split; [reflexivity|]. intros m. reflexivity. Qed.

Lemma silent_lift {A} (o : outcome A) : silent (lift o).
Proof. intros w. split; [reflexivity|]. intros m. reflexivity. Qed.

Lemma silent_print (s : str) : silent (print s).
Proof.
  intros w. unfold print. destruct (existsb is_surrogate s).
  - split; [reflexivity|]. intros m. reflexivity.
  - split; [reflexivity|]. intros m. cbn [emit snd events].
    rewrite count_requests_app. cbn. lia.
Qed.

Lemma silent_print_exn (e : exn) : silent (print_exn e).
Proof.
  intros w. split; [reflexivity|]. intros m. cbn [print_exn emit snd events].
  rewrite count_requests_app. cbn. lia.
Qed.

Lemma silent_bind {A B} (c : M A) (k : A -> M B) :
  silent c -> (forall a, silent (k a)) -> silent (bind c k).
Proof.
  intros Hc Hk w. unfold bind. destruct (Hc w) as [Hr Hn].
  destruct (c w) as [[a|e] w1]; cbn [snd] in *.
  - destruct (Hk a w1) as [Hr1 Hn1]. split.
    + now rewrite Hr1.
    + intros m. now rewrite Hn1.
  - now split.
Qed.

Lemma silent_for_each {A} (l : list A) (body : A -> M unit) :
  (forall x, silent (body x)) -> silent (for_each l body).
Proof.
  intros Hb. induction l as [|x l IH]; cbn [for_each].
  - apply silent_ret.
  - apply silent_bind; [apply Hb | intros _; exact IH].
Qed.

Ltac silent_steps :=
  repeat first
    [ apply silent_ret
    | apply silent_lift
    | apply silent_print
    | apply silent_print_exn
    | apply silent_bind; [|intros ?]
    | apply silent_for_each; intros ?
    | match goal with
      | |- silent (if ?b then _ else _) => destruct b
      end ].

(** A request followed by silent steps: one reply is taken and the request
    is the only one added. *)
Lemma request_then_silent {A} (host : str) (port : Z) (method url body : str)
    (headers : list (str * str)) (k : outcome HTTPResponse -> M A) (w : World) :
  (forall c, silent (k c)) ->
  replies (snd (bind (request host port method url body headers) k w)) =
    tl (replies w) /\
  forall m,
    count_requests m
      (events (snd (bind (request host port method url body headers) k w))) =
    (count_requests m (events w) + if str_eqb method m then 1 else 0)%nat.
Proof.
  intros Hk.
  assert (Hone : forall m,
    count_requests m
      (events w ++ [Requested host port method url body headers]) =
    (count_requests m (events w) + if str_eqb method m then 1 else 0)%nat).
  { intros m. rewrite count_requests_app. unfold count_requests at 2.
    cbn [filter is_request]. now destruct (str_eqb method m). }
  unfold bind, request.
  destruct (replies w) as [|[e|e|e|r] rest]; cbn [snd events replies tl].
  - split; [reflexivity | exact Hone].
  - split; [reflexivity | exact Hone].
  - split; [reflexivity | exact Hone].
  - destruct (Hk (Raise e)
                {| replies := rest;
                   events :=
                     events w ++
                     [Requested host port method url body headers] |})
      as [Hr Hn].
    cbn [replies events] in Hr, Hn. split; [exact Hr|].
    intros m. now rewrite Hn, Hone.
  - destruct (Hk (Return r)
                {| replies := rest;
                   events :=
                     events w ++
                     [Requested host port method url body headers] |})
      as [Hr Hn].
    cbn [replies events] in Hr, Hn. split; [exact Hr|].
    intros m. now rewrite Hn, Hone.
Qed.

(** The constructor returns or it raises what the world tells. *)
Lemma constructs_or_refused (host : str) (port : Z) (w : World) :
  constructs host port w \/
  exists e rest,
    replies w = ConnectFails e :: rest /\
    connected_before host port (events w) = false.
Proof.
  destruct (connected_before host port (events w)) eqn:Hc.
  - left. now apply constructs_again.
  - destruct (replies w) as [|[e|e|e|r] rest] eqn:Hr;
      try (left; apply constructs_unless_told; rewrite Hr; discriminate).
    right. now exists e, rest.
Qed.

(** Once the connection is built and the credentials are encoded,
    [doGetTransferStatus] takes one exchange and makes one request, a GET. *)
Lemma doGetTransferStatus_exchange (cfg : Config)
    (url userId password : str) (hdrs : list (str * str)) (w : World) :
  constructs (mqWebServer cfg) (mqWebServerPort cfg) w ->
  buildHTTPHeaders userId password = Return hdrs ->
  replies (snd (doGetTransferStatus cfg url userId password w)) =
    tl (replies w) /\
  forall m,
    count_requests m
      (events (snd (doGetTransferStatus cfg url userId password w))) =
    (count_requests m (events w) + if str_eqb (lit "GET") m then 1 else 0)%nat.
Proof.
  intros Hc Hh. unfold doGetTransferStatus.
  rewrite (bind_constructs _ _ _ w Hc), (bind_lift_return _ _ _ w Hh).
  apply request_then_silent. intros c. unfold getresponse. silent_steps.
Qed.

(** The same for [doPostTransfer] and its POST. *)
Lemma doPostTransfer_exchange (cfg : Config)
    (url body userId password : str) (hdrs : list (str * str)) (w : World) :
  constructs (mqWebServer cfg) (mqWebServerPort cfg) w ->
  buildHTTPHeaders userId password = Return hdrs ->
  replies (snd (doPostTransfer cfg url body userId password w)) =
    tl (replies w) /\
  forall m,
    count_requests m
      (events (snd (doPostTransfer cfg url body userId password w))) =
    (count_requests m (events w) + if str_eqb (lit "POST") m then 1 else 0)%nat.
Proof.
  intros Hc Hh. unfold doPostTransfer.
  rewrite (bind_constructs _ _ _ w Hc), (bind_lift_return _ _ _ w Hh).
  apply request_then_silent. intros c. unfold getresponse. silent_steps.
Qed.

(** Credentials that cannot be encoded: nothing happens. *)
Lemma doPostTransfer_no_headers (cfg : Config)
    (url body userId password : str) (e : exn) (w : World) :
  constructs (mqWebServer cfg) (mqWebServerPort cfg) w ->
  buildHTTPHeaders userId password = Raise e ->
  doPostTransfer cfg url body userId password w = (Raise e, w).
Proof.
  intros Hc Hh. unfold doPostTransfer.
  now rewrite (bind_constructs _ _ _ w Hc), (bind_lift_raise _ _ _ w Hh).
Qed.

Lemma doGetTransferStatus_no_headers (cfg : Config)
    (url userId password : str) (e : exn) (w : World) :
  constructs (mqWebServer cfg) (mqWebServerPort cfg) w ->
  buildHTTPHeaders userId password = Raise e ->
  doGetTransferStatus cfg url userId password w = (Raise e, w).
Proof.
  intros Hc Hh. unfold doGetTransferStatus.
  now rewrite (bind_constructs _ _ _ w Hc), (bind_lift_raise _ _ _ w Hh).
Qed.

(** A refused connection: the constructor's exception, nothing else. *)
Lemma doPostTransfer_refused (cfg : Config) (url body userId password : str)
    (e : exn) (rest : list Reply) (evs : list Event) :
  connected_before (mqWebServer cfg) (mqWebServerPort cfg) evs = false ->
  doPostTransfer cfg url body userId password
    {| replies := ConnectFails e :: rest; events := evs |} =
  (Raise e, {| replies := rest; events := evs |}).
Proof. intros H. unfold doPostTransfer. now apply bind_refused. Qed.

Lemma doGetTransferStatus_refused (cfg : Config) (url userId password : str)
    (e : exn) (rest : list Reply) (evs : list Event) :
  connected_before (mqWebServer cfg) (mqWebServerPort cfg) evs = false ->
  doGetTransferStatus cfg url userId password
    {| replies := ConnectFails e :: rest; events := evs |} =
  (Raise e, {| replies := rest; events := evs |}).
Proof. intros H. unfold doGetTransferStatus. now apply bind_refused. Qed.

(** X6. Each of [doPostTransfer] and [doGetTransferStatus] is at most one
    exchange.  When the connection gets built: with credentials that can be
    encoded the call makes exactly one request, of its own verb, and takes
    exactly one scripted reply, however the exchange goes and whatever the
    reply holds; with credentials that cannot be encoded it raises before
    anything is sent.  When the constructor raises, that exception is what
    the call raises, whatever the credentials, and nothing is sent. *)
Theorem one_call_is_one_exchange (cfg : Config)
    (url body userId password : str) (w : World) :
  (connection_built cfg w ->
   (forall hdrs,
      buildHTTPHeaders userId password = Return hdrs ->
      (replies (snd (doPostTransfer cfg url body userId password w)) =
         tl (replies w) /\
       count_requests (lit "POST")
         (events (snd (doPostTransfer cfg url body userId password w))) =
         S (count_requests (lit "POST") (events w)) /\
       count_requests (lit "GET")
         (events (snd (doPostTransfer cfg url body userId password w))) =
         count_requests (lit "GET") (events w)) /\
      (replies (snd (doGetTransferStatus cfg url userId password w)) =
         tl (replies w) /\
       count_requests (lit "GET")
         (events (snd (doGetTransferStatus cfg url userId password w))) =
         S (count_requests (lit "GET") (events w)) /\
       count_requests (lit "POST")
         (events (snd (doGetTransferStatus cfg url userId password w))) =
         count_requests (lit "POST") (events w))) /\
   (forall e,
      buildHTTPHeaders userId password = Raise e ->
      doPostTransfer cfg url body userId password w = (Raise e, w) /\
      doGetTransferStatus cfg url userId password w = (Raise e, w))) /\
  (forall e rest,
     replies w = ConnectFails e :: rest ->
     connected_before (mqWebServer cfg) (mqWebServerPort cfg) (events w)
       = false ->
     doPostTransfer cfg url body userId password w =
       (Raise e, {| replies := rest; events := events w |}) /\
     doGetTransferStatus cfg url userId password w =
       (Raise e, {| replies := rest; events := events w |})).
Proof.
  split.
  - intros [_ Hc]. split.
    + intros hdrs Hh.
      destruct (doPostTransfer_exchange cfg url body userId password hdrs w
                  Hc Hh) as [Hpr Hpn].
      destruct (doGetTransferStatus_exchange cfg url userId password hdrs w
                  Hc Hh) as [Hgr Hgn].
      repeat split; try assumption.
      * rewrite Hpn. change (str_eqb (lit "POST") (lit "POST")) with true.
        cbv iota. lia.
      * rewrite Hpn. change (str_eqb (lit "POST") (lit "GET")) with false.
        cbv iota. lia.
      * rewrite Hgn. change (str_eqb (lit "GET") (lit "GET")) with true.
        cbv iota. lia.
      * rewrite Hgn. change (str_eqb (lit "GET") (lit "POST")) with false.
        cbv iota. lia.
    + intros e Hh. split.
      * now apply doPostTransfer_no_headers.
      * now apply doGetTransferStatus_no_headers.
  - intros e rest Hr Hc. destruct w as [rs evs]. cbn [replies events] in *.
    subst rs. split.
    + now apply doPostTransfer_refused.
    + now apply doGetTransferStatus_refused.
Qed.

(** ** The whole script *)

(** X7. On every run the script ends without an exception escaping, and it
    has made at most one POST and at most one GET: since the status query
    never returns 404, the second query is never made. *)
Theorem script_makes_at_most_two_requests (cfg : Config) (rs : list Reply) :
  fst (main cfg {| replies := rs; events := [] |}) = Return tt /\
  (count_requests (lit "POST") (events (run cfg rs)) <= 1)%nat /\
  (count_requests (lit "GET") (events (run cfg rs)) <= 1)%nat.
Proof.
  split.
  { unfold main, try_except.
    match goal with
    | |- context [bind ?c ?k ?w] => destruct (bind c k w) as [[[]|e] w1]
    end; reflexivity. }
  assert (Hpost : forall m,
    (count_requests m
       (events (snd (doPostTransfer cfg (transferRequestUrl cfg)
                       (buildTransferRequest cfg) (mqWebUserId cfg)
                       (mqWebPassword cfg)
                       {| replies := rs; events := [] |}))) <=
     if str_eqb (lit "POST") m then 1 else 0)%nat).
  { intros m.
    destruct (constructs_or_refused (mqWebServer cfg) (mqWebServerPort cfg)
                {| replies := rs; events := [] |})
      as [Hc | (e & rest & Hr & Hc)].
    - destruct (buildHTTPHeaders (mqWebUserId cfg) (mqWebPassword cfg))
        as [hdrs|e] eqn:Hh.
      + destruct (doPostTransfer_exchange cfg (transferRequestUrl cfg)
                    (buildTransferRequest cfg) _ _ hdrs
                    {| replies := rs; events := [] |} Hc Hh) as [_ Hn].
        rewrite Hn. cbn [events]. reflexivity.
      + rewrite (doPostTransfer_no_headers cfg _ _ _ _ e _ Hc Hh).
        cbn. lia.
    - cbn [replies events] in Hr, Hc. subst rs.
      rewrite (doPostTransfer_refused cfg _ _ _ _ e rest [] Hc). cbn. lia. }
  pose proof (Hpost (lit "POST")) as HP. pose proof (Hpost (lit "GET")) as HG.
  change (str_eqb (lit "POST") (lit "POST")) with true in HP.
  change (str_eqb (lit "POST") (lit "GET")) with false in HG.
  clear Hpost.
  pose proof (fun l =>
                proj1 (doPostTransfer_returns_str cfg (transferRequestUrl cfg)
                         (buildTransferRequest cfg) (mqWebUserId cfg)
                         (mqWebPassword cfg) rs [] l)) as Hstr.
  destruct (doPostTransfer cfg (transferRequestUrl cfg)
              (buildTransferRequest cfg) (mqWebUserId cfg) (mqWebPassword cfg)
              {| replies := rs; events := [] |}) as [[v|e] w1] eqn:E;
    cbn [fst snd] in *.
  - destruct (is_str v) eqn:Hv.
    + destruct v; try discriminate Hv.
      destruct (Hstr s eq_refl) as (hdrs & r & rest & Hh & -> & Hs & Hl).
      clear HP HG. unfold run.
      rewrite (main_accepted cfg hdrs s r rest Hh Hs Hl).
      cbv beta iota zeta delta [try_except bind].
      match goal with
      | |- context [doGetTransferStatus cfg ?u ?a ?b ?w] =>
          assert (Hc : constructs (mqWebServer cfg) (mqWebServerPort cfg) w)
            by (apply constructs_again; cbn [events];
                apply (connected_after_request _ _ _ _ _ _ []));
          pose proof (doGetTransferStatus_exchange cfg u a b hdrs w Hc Hh)
            as [_ Hn];
          pose proof (doGetTransferStatus_returns cfg u a b w) as Hret;
          destruct (doGetTransferStatus cfg u a b w) as [[n|e] w2]
      end; cbn [fst snd events] in *.
      * destruct (Hret n eq_refl) as (r' & rest' & _ & Hok & ->).
        rewrite Hok. cbn [Z.eqb OK NOT_FOUND Pos.eqb ret snd].
        rewrite !Hn. split; cbn; lia.
      * cbn [print_exn emit snd events]. rewrite !count_requests_app, !Hn.
        split; cbn; lia.
    + rewrite (run_post_not_str cfg rs v w1 E Hv). split; lia.
  - rewrite (run_post_raises cfg rs e w1 E). cbn [events].
    rewrite !count_requests_app.
    change (count_requests (lit "POST") [PrintedExn e]) with 0%nat.
    change (count_requests (lit "GET") [PrintedExn e]) with 0%nat.
    split; lia.
Qed.

Lemma one_call_is_one_exchange_witness :
  (replies
     (snd (doPostTransfer source_config (transferRequestUrl source_config)
             (buildTransferRequest source_config) (lit "mftuser")
             (lit "mftpassw0rd")
             {| replies := [Answers completed_reply; Answers failed_reply];
                events := [] |})) =
     tl [Answers completed_reply; Answers failed_reply] /\
   count_requests (lit "POST")
     (events
        (snd (doPostTransfer source_config (transferRequestUrl source_config)
                (buildTransferRequest source_config) (lit "mftuser")
                (lit "mftpassw0rd")
                {| replies := [Answers completed_reply; Answers failed_reply];
                   events := [] |}))) = 1%nat /\
   count_requests (lit "GET")
     (events
        (snd (doPostTransfer source_config (transferRequestUrl source_config)
                (buildTransferRequest source_config) (lit "mftuser")
                (lit "mftpassw0rd")
                {| replies := [Answers completed_reply; Answers failed_reply];
                   events := [] |}))) = 0%nat) /\
  (replies
     (snd (doGetTransferStatus source_config
             (transferRequestUrl source_config) (lit "mftuser")
             (lit "mftpassw0rd")
             {| replies := [Answers completed_reply; Answers failed_reply];
                events := [] |})) =
     tl [Answers completed_reply; Answers failed_reply] /\
   count_requests (lit "GET")
     (events
        (snd (doGetTransferStatus source_config
                (transferRequestUrl source_config) (lit "mftuser")
                (lit "mftpassw0rd")
                {| replies := [Answers completed_reply; Answers failed_reply];
                   events := [] |}))) = 1%nat /\
   count_requests (lit "POST")
     (events
        (snd (doGetTransferStatus source_config
                (transferRequestUrl source_config) (lit "mftuser")
                (lit "mftpassw0rd")
                {| replies := [Answers completed_reply; Answers failed_reply];
                   events := [] |}))) = 0%nat).
Proof.
  apply (proj1
           (proj1 (one_call_is_one_exchange source_config
                     (transferRequestUrl source_config)
                     (buildTransferRequest source_config) (lit "mftuser")
                     (lit "mftpassw0rd")
                     {| replies :=
                          [Answers completed_reply; Answers failed_reply];
                        events := [] |})
              (conj eq_refl eq_refl)) source_headers).
  vm_compute. reflexivity.
Defined.

(** X8. The POST is accepted with a [location] header and the status query
    is answered with 200, a state other than [failed] and, for id and
    state, text that standard output can encode.  The script sends
    its GET to the location followed by [?attributes=*], with an empty body
    and the headers of the POST, prints the status line and ends: no second
    query, no exception printed, later replies untouched. *)
Theorem accepted_then_answered (cfg : Config) (hdrs : list (str * str))
    (l : str) (r q : HTTPResponse) (rest : list Reply) (doc : value)
    (fields : list (str * value)) (transferId state : str) :
  buildHTTPHeaders (mqWebUserId cfg) (mqWebPassword cfg) = Return hdrs ->
  status r = ACCEPTED ->
  getheader r (lit "location") = Some l ->
  status q = OK ->
  document q = Return doc ->
  status_entry doc fields transferId state ->
  encodable transferId ->
  encodable state ->
  state <> lit "failed" ->
  run cfg (Answers r :: Answers q :: rest) =
  {| replies := rest;
     events :=
       [Requested (mqWebServer cfg) (mqWebServerPort cfg) (lit "POST")
          (transferRequestUrl cfg) (buildTransferRequest cfg) hdrs;
        Printed (lit "Posted transfer request successfully");
        Printed (lit "Transfer requested accepted. Status URL " ++ l);
        Requested (mqWebServer cfg) (mqWebServerPort cfg) (lit "GET")
          (l ++ lit "?attributes=*") (lit "") hdrs;
        Printed (lit "Status of transfer request with Id " ++ transferId
                   ++ lit " is " ++ state)] |}.
Proof.
  intros Hh Hs Hl Hq Hdoc Hentry Hid Hst Hstate. unfold run.
  rewrite (main_accepted cfg hdrs l r _ Hh Hs Hl).
  cbv beta iota zeta delta [try_except bind].
  rewrite (doGetTransferStatus_entry cfg _ _ _ hdrs q rest _ doc fields
             transferId state Hh Hq Hdoc Hentry Hid Hst).
  destruct (str_eqb state (lit "failed")) eqn:Hf.
  - apply str_eqb_eq in Hf. contradiction.
  - reflexivity.
Qed.

Lemma accepted_then_answered_witness :
  run source_config
    [Answers accepted_reply; Answers completed_reply; Answers failed_reply] =
  {| replies := [Answers failed_reply];
     events :=
       [Requested (mqWebServer source_config) (mqWebServerPort source_config)
          (lit "POST") (transferRequestUrl source_config)
          (buildTransferRequest source_config) source_headers;
        Printed (lit "Posted transfer request successfully");
        Printed (lit "Transfer requested accepted. Status URL "
                   ++ sample_location);
        Requested (mqWebServer source_config) (mqWebServerPort source_config)
          (lit "GET") (sample_location ++ lit "?attributes=*") (lit "")
          source_headers;
        Printed (lit "Status of transfer request with Id "
                   ++ lit "414d51204d46544453542020"
                   ++ lit " is " ++ lit "completed")] |}.
Proof.
  apply (accepted_then_answered source_config source_headers sample_location
           accepted_reply completed_reply [Answers failed_reply]
           (dict [("transfer"%string, PyList [PyDict completed_fields])])
           completed_fields (lit "414d51204d46544453542020")
           (lit "completed")).
  - vm_compute. reflexivity.
  - reflexivity.
  - vm_compute. reflexivity.
  - reflexivity.
  - reflexivity.
  - eexists _, _, _. repeat split; vm_compute; reflexivity.
  - apply lit_plain.
  - apply lit_plain.
  - vm_compute. discriminate.
Defined.

(** X9. An exception of the transport ends the script, and the handler
    prints it.  Raised while the POST is sent: nothing else is printed.
    Raised while the response to the POST is read: [Posted transfer request
    successfully] has been printed all the same.  Raised during the status
    query, either way: it is printed after the lines of the accepted POST.
    No further request is made. *)
Theorem transport_failures_are_printed (cfg : Config)
    (hdrs : list (str * str)) (e : exn) (rest : list Reply) :
  buildHTTPHeaders (mqWebUserId cfg) (mqWebPassword cfg) = Return hdrs ->
  let post :=
    Requested (mqWebServer cfg) (mqWebServerPort cfg) (lit "POST")
      (transferRequestUrl cfg) (buildTransferRequest cfg) hdrs in
  let posted := Printed (lit "Posted transfer request successfully") in
  run cfg (SendFails e :: rest) =
    {| replies := rest; events := [post; PrintedExn e] |} /\
  run cfg (ReceiveFails e :: rest) =
    {| replies := rest; events := [post; posted; PrintedExn e] |} /\
  forall r l,
    status r = ACCEPTED ->
    getheader r (lit "location") = Some l ->
    let accepted :=
      Printed (lit "Transfer requested accepted. Status URL " ++ l) in
    let get :=
      Requested (mqWebServer cfg) (mqWebServerPort cfg) (lit "GET")
        (l ++ lit "?attributes=*") (lit "") hdrs in
    run cfg (Answers r :: SendFails e :: rest) =
      {| replies := rest;
         events := [post; posted; accepted; get; PrintedExn e] |} /\
    run cfg (Answers r :: ReceiveFails e :: rest) =
      {| replies := rest;
         events := [post; posted; accepted; get; PrintedExn e] |}.
Proof.
  intros Hh. cbv zeta. split; [|split].
  - rewrite (run_post_raises cfg _ e
               {| replies := rest;
                  events :=
                    [Requested (mqWebServer cfg) (mqWebServerPort cfg)
                       (lit "POST") (transferRequestUrl cfg)
                       (buildTransferRequest cfg) hdrs] |});
      [reflexivity|].
    unfold doPostTransfer. monad_steps. rewrite Hh. reflexivity.
  - rewrite (run_post_raises cfg _ e
               {| replies := rest;
                  events :=
                    [Requested (mqWebServer cfg) (mqWebServerPort cfg)
                       (lit "POST") (transferRequestUrl cfg)
                       (buildTransferRequest cfg) hdrs;
                     Printed (lit "Posted transfer request successfully")] |});
      [reflexivity|].
    unfold doPostTransfer. monad_steps. rewrite Hh. reflexivity.
  - intros r l Hs Hl. split; unfold run;
      rewrite (main_accepted cfg hdrs l r _ Hh Hs Hl);
      cbv beta iota zeta delta [try_except bind];
      unfold doGetTransferStatus; monad_steps; rewrite Hh; reflexivity.
Qed.

Lemma transport_failures_are_printed_witness :
  let post :=
    Requested (mqWebServer source_config) (mqWebServerPort source_config)
      (lit "POST") (transferRequestUrl source_config)
      (buildTransferRequest source_config) source_headers in
  let posted := Printed (lit "Posted transfer request successfully") in
  run source_config [SendFails OSError] =
    {| replies := []; events := [post; PrintedExn OSError] |} /\
  run source_config [ReceiveFails OSError] =
    {| replies := []; events := [post; posted; PrintedExn OSError] |} /\
  forall r l,
    status r = ACCEPTED ->
    getheader r (lit "location") = Some l ->
    let accepted :=
      Printed (lit "Transfer requested accepted. Status URL " ++ l) in
    let get :=
      Requested (mqWebServer source_config) (mqWebServerPort source_config)
        (lit "GET") (l ++ lit "?attributes=*") (lit "") source_headers in
    run source_config [Answers r; SendFails OSError] =
      {| replies := [];
         events := [post; posted; accepted; get; PrintedExn OSError] |} /\
    run source_config [Answers r; ReceiveFails OSError] =
      {| replies := [];
         events := [post; posted; accepted; get; PrintedExn OSError] |}.
Proof.
  apply (transport_failures_are_printed source_config source_headers OSError
           []).
  vm_compute. reflexivity.
Defined.

(** ** Credentials that cannot be encoded *)

Lemma utf8_codepoint_surrogate (c : codepoint) :
  is_surrogate c = true -> utf8_codepoint c = Raise UnicodeEncodeError.
Proof.
  unfold is_surrogate, utf8_codepoint. intros H. rewrite H.
  apply andb_true_iff in H as [Hlo _]. apply N.leb_le in Hlo.
  replace (c <? 128)%N with false by (symmetry; apply N.ltb_ge; lia).
  replace (c <? 2048)%N with false by (symmetry; apply N.ltb_ge; lia).
  reflexivity.
Qed.

Lemma utf8_codepoint_other (c : codepoint) :
  is_surrogate c = false -> exists bs, utf8_codepoint c = Return bs.
Proof.
  unfold is_surrogate, utf8_codepoint. intros H. rewrite H.
  destruct (c <? 128)%N; [eauto|]. destruct (c <? 2048)%N; [eauto|].
  destruct (c <? 65536)%N; eauto.
Qed.

Lemma utf8_encode_surrogate (s : str) :
  existsb is_surrogate s = true -> utf8_encode s = Raise UnicodeEncodeError.
Proof.
  induction s as [|c s IH]; cbn [existsb utf8_encode]; [discriminate|].
  intros H. destruct (is_surrogate c) eqn:Hc.
  - now rewrite (utf8_codepoint_surrogate c Hc).
  - destruct (utf8_codepoint_other c Hc) as [bs ->].
    cbn [orb] in H. now rewrite (IH H).
Qed.

Lemma utf8_encode_other (s : str) :
  existsb is_surrogate s = false -> exists raw, utf8_encode s = Return raw.
Proof.
  induction s as [|c s IH]; cbn [existsb utf8_encode]; [eauto|].
  intros H. apply orb_false_iff in H as [Hc Hs].
  destruct (utf8_codepoint_other c Hc) as [bs ->].
  destruct (IH Hs) as [raw ->]. eauto.
Qed.

Lemma credentials_surrogate (userId password : str) :
  existsb is_surrogate (userId ++ lit ":" ++ password) =
  existsb is_surrogate (userId ++ password).
Proof. rewrite !existsb_app. reflexivity. Qed.

Lemma buildHTTPHeaders_surrogate (userId password : str) :
  existsb is_surrogate (userId ++ password) = true ->
  buildHTTPHeaders userId password = Raise UnicodeEncodeError.
Proof.
  intros H. unfold buildHTTPHeaders. rewrite <- credentials_surrogate in H.
  now rewrite (utf8_encode_surrogate _ H).
Qed.

Lemma buildHTTPHeaders_other (userId password : str) :
  existsb is_surrogate (userId ++ password) = false ->
  exists hdrs, buildHTTPHeaders userId password = Return hdrs.
Proof.
  intros H. unfold buildHTTPHeaders. rewrite <- credentials_surrogate in H.
  destruct (utf8_encode_other _ H) as [raw ->]. eauto.
Qed.

(** X10. [buildHTTPHeaders] fails exactly when the user id or the password
    holds a surrogate code point, and then with [UnicodeEncodeError]; for
    all other credentials, empty ones included, it returns its three
    headers, in the order [Content-type], [ibm-mq-rest-csrf-token],
    [Authorization]. *)
Theorem buildHTTPHeaders_fails_on_surrogates (userId password : str) :
  (buildHTTPHeaders userId password = Raise UnicodeEncodeError <->
   existsb is_surrogate (userId ++ password) = true) /\
  (forall e,
     buildHTTPHeaders userId password = Raise e -> e = UnicodeEncodeError) /\
  (forall hdrs,
     buildHTTPHeaders userId password = Return hdrs ->
     map fst hdrs =
     [lit "Content-type"; lit "ibm-mq-rest-csrf-token"; lit "Authorization"]).
Proof.
  destruct (existsb is_surrogate (userId ++ password)) eqn:Hs.
  - pose proof (buildHTTPHeaders_surrogate _ _ Hs) as H. rewrite H.
    repeat split; try discriminate; intros; congruence.
  - destruct (buildHTTPHeaders_other _ _ Hs) as [hdrs H]. rewrite H.
    repeat split; try discriminate.
    intros h Hh. injection Hh as <-.
    unfold buildHTTPHeaders in H.
    destruct (utf8_encode (userId ++ lit ":" ++ password));
      [|discriminate H].
    now injection H as <-.
Qed.

(** X11. With a surrogate in the user id or the password the script sends
    nothing.  When the connection gets built, the POST is never made, no
    scripted reply is taken, and all the script does is print the
    [UnicodeEncodeError].  When the constructor raises, which comes first,
    it is the constructor's exception that is printed. *)
Theorem unencodable_credentials_send_nothing (cfg : Config)
    (rs : list Reply) :
  existsb is_surrogate (mqWebUserId cfg ++ mqWebPassword cfg) = true ->
  (connection_built cfg {| replies := rs; events := [] |} ->
   run cfg rs =
   {| replies := rs; events := [PrintedExn UnicodeEncodeError] |}) /\
  (forall e rest,
     rs = ConnectFails e :: rest ->
     run cfg rs = {| replies := rest; events := [PrintedExn e] |}).
Proof.
  intros H. split.
  - intros [_ Hc].
    rewrite (run_post_raises cfg rs UnicodeEncodeError
               {| replies := rs; events := [] |}); [reflexivity|].
    apply doPostTransfer_no_headers; [exact Hc|].
    now apply buildHTTPHeaders_surrogate.
  - intros e rest ->.
    rewrite (run_post_raises cfg _ e {| replies := rest; events := [] |});
      [reflexivity|].
    now apply doPostTransfer_refused.
Qed.

Lemma unencodable_credentials_send_nothing_witness :
  run surrogate_config [Answers accepted_reply; Answers completed_reply] =
  {| replies := [Answers accepted_reply; Answers completed_reply];
     events := [PrintedExn UnicodeEncodeError] |}.
Proof.
  apply (proj1 (unencodable_credentials_send_nothing surrogate_config
                  [Answers accepted_reply; Answers completed_reply]
                  eq_refl)).
  split; reflexivity.
Defined.

(** ** The text of the request *)

Lemma hex_digit_printable (n : N) : printable (hex_digit (N.land n 15)) = true.
Proof.
  assert (H : (N.land n 15 < 16)%N).
  { change 15%N with (N.ones 4). rewrite N.land_ones.
    apply N.mod_lt. discriminate. }
  unfold printable, hex_digit.
  destruct (N.land n 15 <? 10)%N eqn:Hd.
  - apply N.ltb_lt in Hd. apply andb_true_iff.
    split; apply N.leb_le; lia.
  - apply N.ltb_ge in Hd. apply andb_true_iff.
    split; apply N.leb_le; lia.
Qed.

Lemma hex4_printable (n : N) : forallb printable (hex4 n) = true.
Proof.
  unfold hex4. cbn [forallb]. now rewrite !hex_digit_printable.
Qed.

Lemma json_escape_char_printable (c : codepoint) :
  forallb printable (json_escape_char c) = true.
Proof.
  unfold json_escape_char.
  repeat match goal with
         | |- forallb printable (if ?b then _ else _) = true =>
             destruct b eqn:?
         end;
    try reflexivity;
    cbn [app forallb]; rewrite ?forallb_app; cbn [forallb];
    rewrite ?hex4_printable; try reflexivity.
  unfold printable. rewrite andb_true_r. assumption.
Qed.

Lemma json_string_printable (s : str) :
  forallb printable (json_string s) = true.
Proof.
  unfold json_string. rewrite !forallb_app. cbn [forallb].
  replace (printable dquote) with true by reflexivity. cbn [andb].
  rewrite andb_true_r.
  induction s as [|c s IH]; cbn [flat_map]; [reflexivity|].
  now rewrite forallb_app, json_escape_char_printable, IH.
Qed.

(** X12. Whatever the settings hold, the text [buildTransferRequest]
    returns is made of printable ASCII characters only, the code points 32
    to 126: no control character and no character outside ASCII of a name
    is in it as such. *)
Theorem buildTransferRequest_is_ascii (cfg : Config) :
  forallb printable (buildTransferRequest cfg) = true.
Proof.
  unfold buildTransferRequest, transferRequest. cbn [json_dumps].
  rewrite !forallb_app, !json_string_printable.
  vm_compute. reflexivity.
Qed.

(** ** The [Authorization] value in general *)

(** X13. For all credentials that can be encoded, the [Authorization] value
    is [Basic b'], the base64 text of [userId:password] and a closing ['];
    it is three characters longer than [Basic ] followed by that base64 text,
    hence never equal to it. *)
Theorem authorization_value_for_all_credentials (userId password : str)
    (raw : bytes) (hdrs : list (str * str)) :
  utf8_encode (userId ++ lit ":" ++ password) = Return raw ->
  buildHTTPHeaders userId password = Return hdrs ->
  exists value,
    hdrs = [(lit "Content-type", lit "application/json");
            (lit "ibm-mq-rest-csrf-token", lit "");
            (lit "Authorization", value)] /\
    value = lit "Basic b'" ++ ascii_text (b64encode raw) ++ lit "'" /\
    List.length value =
      (3 + List.length (lit "Basic " ++ ascii_text (b64encode raw)))%nat /\
    value <> lit "Basic " ++ ascii_text (b64encode raw).
Proof.
  intros Hraw Hh. rewrite (buildHTTPHeaders_value _ _ _ Hraw) in Hh.
  injection Hh as <-. eexists. split; [reflexivity|].
  assert (Hlen :
    List.length
      (lit "Basic " ++ lit "b'" ++ ascii_text (b64encode raw) ++ lit "'") =
    (3 + List.length (lit "Basic " ++ ascii_text (b64encode raw)))%nat).
  { rewrite !length_app.
    change (List.length (lit "Basic ")) with 6%nat.
    change (List.length (lit "b'")) with 2%nat.
    change (List.length (lit "'")) with 1%nat. lia. }
  split; [reflexivity|]. split; [exact Hlen|].
  intros Heq. apply (f_equal (@List.length codepoint)) in Heq.
  pose proof (eq_trans (eq_sym Hlen) Heq) as Habs. lia.
Qed.

Lemma authorization_value_for_all_credentials_witness :
  exists value,
    source_headers =
      [(lit "Content-type", lit "application/json");
       (lit "ibm-mq-rest-csrf-token", lit "");
       (lit "Authorization", value)] /\
    value =
      lit "Basic b'"
        ++ ascii_text
             (b64encode (list_byte_of_string "mftuser:mftpassw0rd"))
        ++ lit "'" /\
    List.length value =
      (3 + List.length
             (lit "Basic "
                ++ ascii_text
                     (b64encode (list_byte_of_string "mftuser:mftpassw0rd"))))%nat /\
    value <>
      lit "Basic "
        ++ ascii_text (b64encode (list_byte_of_string "mftuser:mftpassw0rd")).
Proof.
  apply (authorization_value_for_all_credentials (lit "mftuser")
           (lit "mftpassw0rd") (list_byte_of_string "mftuser:mftpassw0rd")
           source_headers).
  - vm_compute. reflexivity.
  - vm_compute. reflexivity.
Defined.

(** ** A failed transfer whose [transferSet] is not as expected *)

(** X14. A 200 reply whose overall state is [failed], whose id standard
    output can encode and whose entry has a [transferSet] of another shape:
    [doGetTransferStatus] prints the status line and then raises,
    [TypeError] when [transferSet] is not an object, [KeyError] when it has
    no [item], [TypeError] when [item] is [null], a number or a boolean, and
    [TypeError] again when the first entry of the [item] array is not an
    object. *)
Theorem malformed_transferSet_raises (cfg : Config)
    (url userId password : str) (hdrs : list (str * str)) (r : HTTPResponse)
    (rest : list Reply) (evs : list Event) (doc : value)
    (fields : list (str * value)) (transferId : str) (transferSet : value) :
  buildHTTPHeaders userId password = Return hdrs ->
  status r = OK ->
  document r = Return doc ->
  status_entry doc fields transferId (lit "failed") ->
  encodable transferId ->
  dict_get (lit "transferSet") fields = Some transferSet ->
  let raised e :=
    doGetTransferStatus cfg url userId password
      {| replies := Answers r :: rest; events := evs |} =
    (Raise e,
     {| replies := rest;
        events :=
          evs ++
          [Requested (mqWebServer cfg) (mqWebServerPort cfg) (lit "GET") url
             (lit "") hdrs;
           Printed (lit "Status of transfer request with Id " ++ transferId
                      ++ lit " is " ++ lit "failed")] |}) in
  ((forall ts, transferSet <> PyDict ts) -> raised TypeError) /\
  (forall ts,
     transferSet = PyDict ts -> dict_get (lit "item") ts = None ->
     raised KeyError) /\
  (forall ts items,
     transferSet = PyDict ts -> dict_get (lit "item") ts = Some items ->
     iterate items = Raise TypeError ->
     raised TypeError) /\
  (forall ts first others,
     transferSet = PyDict ts ->
     dict_get (lit "item") ts = Some (PyList (first :: others)) ->
     (forall d, first <> PyDict d) ->
     raised TypeError).
Proof.
  intros Hh Hs Hdoc Hentry Hid Hts. cbv zeta.
  rewrite (doGetTransferStatus_entry cfg url userId password hdrs r rest evs
             doc fields transferId (lit "failed") Hh Hs Hdoc Hentry Hid
             (lit_plain _)).
  rewrite str_eqb_refl. monad_steps. cbn [contains getitem]. rewrite Hts.
  monad_steps. repeat split.
  - intros Hnot. destruct transferSet; try reflexivity. now destruct (Hnot d).
  - intros ts -> Hnone. cbn [getitem]. now rewrite Hnone.
  - intros ts items -> Hit Hiter. cbn [getitem]. rewrite Hit. monad_steps.
    now rewrite Hiter.
  - intros ts first others -> Hit Hnot. cbn [getitem]. rewrite Hit.
    monad_steps. cbn [iterate for_each]. unfold bind, report_item at 1.
    destruct first; try reflexivity. now destruct (Hnot d).
Qed.

Lemma malformed_transferSet_raises_witness :
  let raised ts e :=
    doGetTransferStatus source_config (sample_location ++ lit "?attributes=*")
      (lit "mftuser") (lit "mftpassw0rd")
      {| replies := [Answers (reply_with_transferSet ts)]; events := [] |} =
    (Raise e,
     {| replies := [];
        events :=
          [] ++
          [Requested (mqWebServer source_config)
             (mqWebServerPort source_config) (lit "GET")
             (sample_location ++ lit "?attributes=*") (lit "") source_headers;
           Printed (lit "Status of transfer request with Id "
                      ++ lit "414d51204d46544453542020"
                      ++ lit " is " ++ lit "failed")] |}) in
  raised (PyList []) TypeError /\
  raised (PyDict []) KeyError /\
  raised (dict [("item"%string, PyNone)]) TypeError /\
  raised (dict [("item"%string, PyList [text "x"])]) TypeError.
Proof.
  cbv zeta. split; [|split; [|split]].
  - refine (proj1 (malformed_transferSet_raises source_config
                       (sample_location ++ lit "?attributes=*")
                       (lit "mftuser") (lit "mftpassw0rd") source_headers
                       (reply_with_transferSet (PyList [])) [] []
                       (dict [("transfer"%string,
                               PyList [PyDict (fields_with_transferSet
                                                 (PyList []))])])
                       (fields_with_transferSet (PyList []))
                       (lit "414d51204d46544453542020") (PyList [])
                       _ _ _ _ _ _) _);
      try reflexivity; try apply lit_plain; try discriminate;
      try (eexists _, _, _; repeat split; reflexivity).
  - refine (proj1 (proj2 (malformed_transferSet_raises source_config
                       (sample_location ++ lit "?attributes=*")
                       (lit "mftuser") (lit "mftpassw0rd") source_headers
                       (reply_with_transferSet (PyDict [])) [] []
                       (dict [("transfer"%string,
                               PyList [PyDict (fields_with_transferSet
                                                 (PyDict []))])])
                       (fields_with_transferSet (PyDict []))
                       (lit "414d51204d46544453542020") (PyDict [])
                       _ _ _ _ _ _)) [] _ _);
      try reflexivity; try apply lit_plain; try discriminate;
      try (eexists _, _, _; repeat split; reflexivity).
  - refine (proj1 (proj2 (proj2 (malformed_transferSet_raises source_config
                       (sample_location ++ lit "?attributes=*")
                       (lit "mftuser") (lit "mftpassw0rd") source_headers
                       (reply_with_transferSet (dict [("item"%string, PyNone)])) [] []
                       (dict [("transfer"%string,
                               PyList [PyDict (fields_with_transferSet
                                                 (dict [("item"%string, PyNone)]))])])
                       (fields_with_transferSet (dict [("item"%string, PyNone)]))
                       (lit "414d51204d46544453542020") (dict [("item"%string, PyNone)])
                       _ _ _ _ _ _))) [(lit "item", PyNone)] PyNone _ _ _);
      try reflexivity; try apply lit_plain; try discriminate;
      try (eexists _, _, _; repeat split; reflexivity).
  - refine (proj2 (proj2 (proj2 (malformed_transferSet_raises source_config
                       (sample_location ++ lit "?attributes=*")
                       (lit "mftuser") (lit "mftpassw0rd") source_headers
                       (reply_with_transferSet (dict [("item"%string, PyList [text "x"])])) [] []
                       (dict [("transfer"%string,
                               PyList [PyDict (fields_with_transferSet
                                                 (dict [("item"%string, PyList [text "x"])]))])])
                       (fields_with_transferSet (dict [("item"%string, PyList [text "x"])]))
                       (lit "414d51204d46544453542020") (dict [("item"%string, PyList [text "x"])])
                       _ _ _ _ _ _))) [(lit "item", PyList [text "x"])] (text "x") [] _ _ _);
      try reflexivity; try apply lit_plain; try discriminate;
      try (eexists _, _, _; repeat split; reflexivity).
Defined.
